(** * Flowise MCP server: the tool handlers and the transport client

    A shallow embedding of the adapter layer of the server, and its
    properties:
    - flowise-api.ts, the transport client ([createFlowiseApiClient],
      [getDefaultConfig]);
    - handlers.ts, the twelve tool handlers and the two response
      constructors;
    - index.ts, the tool table ([dispatch]), and its single-file form with
      [flowiseApi] and the handlers inline ([dispatch_inline]).

    Conventions of the embedding.
    - A JavaScript value is a tree [JsValue]; an object is the list of its
      own enumerable properties in enumeration order.
    - A string is the sequence of the bytes of its (generalised) UTF-8
      encoding; an unpaired surrogate is the three bytes 0xED, 0xA0..0xBF,
      0x80..0xBF.
    - Numbers are kept abstract ([JsNumber]): the handlers never compute with
      them, they only test, print and serialise them.
    - An [async] function is a computation that records the calls it makes
      on its collaborators and settles, fulfilled or rejected; the
      collaborators (the SDK client, [fetch]) are parameters.
    - The built-ins the code calls ([JSON.stringify], [encodeURIComponent],
      [String], truthiness) follow ECMAScript on these values. *)

From Stdlib Require Import ZArith NArith String Ascii List Bool Lia.
From stdpp Require Import base option strings gmap pretty.
Import ListNotations.

Set Warnings "-register-all".

Local Open Scope string_scope.
Local Open Scope list_scope.

(** ** Characters and strings *)

Definition DQUOTE : ascii := "034"%char.
Definition BACKSLASH : ascii := "092"%char.
Definition LF : ascii := "010"%char.

Definition str (c : ascii) : string := String c EmptyString.

(** [join sep parts] is [parts.join(sep)]. *)
Fixpoint join (sep : string) (parts : list string) : string :=
  match parts with
  | [] => EmptyString
  | [p] => p
  | p :: rest => p +:+ sep +:+ join sep rest
  end.

(** [includes text s] is [text.includes(s)]: [s] occurs in [text]. *)
Fixpoint includes (text s : string) : bool :=
  String.prefix s text ||
  match text with
  | EmptyString => false
  | String _ rest => includes rest s
  end.

Definition hex_digit (upper : bool) (d : N) : ascii :=
  if (d <? 10)%N then ascii_of_N (48 + d)
  else ascii_of_N ((if upper then 55 else 87) + d).

(** The first two bytes of an unpaired surrogate. *)
Definition surrogate_lead (c1 c2 : ascii) : bool :=
  (N_of_ascii c1 =? 237)%N && (160 <=? N_of_ascii c2)%N && (N_of_ascii c2 <=? 191)%N.

(** The UTF-16 code unit of the surrogate encoded by 0xED, [c2], [c3]. *)
Definition surrogate_unit (c2 c3 : ascii) : N :=
  (53248 + (N_of_ascii c2 mod 64) * 64 + N_of_ascii c3 mod 64)%N.

(** ** Numbers *)

(** What the program asks of a Number: ToBoolean (false on zero and NaN),
    finiteness, and Number::toString. *)
Class JsNumber := {
  number : Type;
  number_to_boolean : number -> bool;
  number_is_finite : number -> bool;
  number_to_string : number -> string;
}.

(** The safe integers, from -(2^53 - 1) to 2^53 - 1, are one such model:
    each of them is a Number exactly, none is NaN or infinite, and
    Number::toString prints them in plain decimal (the exponent form only
    starts at 10^21). *)
Record SafeInteger : Type := {
  integer : Z;
  integer_safe : (Z.abs integer <? 2 ^ 53)%Z = true;
}.

#[export] Instance SafeInteger_JsNumber : JsNumber := {|
  number := SafeInteger;
  number_to_boolean n := negb (integer n =? 0)%Z;
  number_is_finite _ := true;
  number_to_string n := pretty (integer n);
|}.

Section Values.
Context {Num : JsNumber}.

(** ** Values *)

Inductive JsValue : Type :=
  | JUndefined
  | JNull
  | JBool (b : bool)
  | JNum (n : number)
  | JStr (s : string)
  | JArr (elems : list JsValue)
  | JObj (props : list (string * JsValue)).

Definition JsObject : Type := list (string * JsValue).

(** [o.k]: the value of property [k], [undefined] when [o] has none. *)
Fixpoint obj_get (o : JsObject) (k : string) : JsValue :=
  match o with
  | [] => JUndefined
  | (k', v) :: rest => if String.eqb k' k then v else obj_get rest k
  end.

Fixpoint obj_has (o : JsObject) (k : string) : bool :=
  match o with
  | [] => false
  | (k', _) :: rest => String.eqb k' k || obj_has rest k
  end.

(** [o.k = v] for a key [k] that is not an array index: an existing
    property keeps its place, a new one comes last. *)
Fixpoint obj_set (o : JsObject) (k : string) (v : JsValue) : JsObject :=
  match o with
  | [] => [(k, v)]
  | (k', v') :: rest =>
      if String.eqb k' k then (k', v) :: rest else (k', v') :: obj_set rest k v
  end.

(** An optional property of a typed parameter object, as a value. *)
Definition optional {A : Type} (inj : A -> JsValue) (o : option A) : JsValue :=
  match o with
  | Some a => inj a
  | None => JUndefined
  end.

(** ToBoolean, the test behind [if (x)], [x ? a : b] and [x || y]. *)
Definition ToBoolean (v : JsValue) : bool :=
  match v with
  | JUndefined | JNull => false
  | JBool b => b
  | JNum n => number_to_boolean n
  | JStr s => negb (String.eqb s EmptyString)
  | JArr _ | JObj _ => true
  end.

(** [x || y]. *)
Definition js_or (x y : JsValue) : JsValue := if ToBoolean x then x else y.

(** [String(v)]; [None] when the conversion throws a TypeError.  An object
    is converted by its [toString] method: the one of [Object.prototype],
    which gives [[object Object]], unless the object has a property of that
    name of its own.  No value of [JsValue] is a function, so such a property
    is no method, and [valueOf], which returns the object itself, does not
    help: the conversion throws.  An array joins the strings of its elements,
    the empty string for [undefined] and [null], and throws when one of them
    does. *)
Fixpoint ToString (v : JsValue) : option string :=
  match v with
  | JUndefined => Some "undefined"
  | JNull => Some "null"
  | JBool true => Some "true"
  | JBool false => Some "false"
  | JNum n => Some (number_to_string n)
  | JStr s => Some s
  | JArr elems =>
      option_map (join ",")
        ((fix strings (elems : list JsValue) : option (list string) :=
            match elems with
            | [] => Some []
            | e :: rest =>
                match match e with
                      | JUndefined | JNull => Some EmptyString
                      | _ => ToString e
                      end, strings rest with
                | Some s, Some ss => Some (s :: ss)
                | _, _ => None
                end
            end) elems)
  | JObj props =>
      if obj_has props "toString" then None else Some "[object Object]"
  end.

(** ** JSON.stringify *)

Definition UnicodeEscape (unit : N) : string :=
  String BACKSLASH
    (String "u"
       (String (hex_digit false (unit / 4096))
          (String (hex_digit false ((unit / 256) mod 16))
             (String (hex_digit false ((unit / 16) mod 16))
                (str (hex_digit false (unit mod 16))))))).

Definition quote_char (c : ascii) : string :=
  let n := N_of_ascii c in
  if (n =? 8)%N then String BACKSLASH "b"
  else if (n =? 9)%N then String BACKSLASH "t"
  else if (n =? 10)%N then String BACKSLASH "n"
  else if (n =? 12)%N then String BACKSLASH "f"
  else if (n =? 13)%N then String BACKSLASH "r"
  else if (n =? 34)%N then String BACKSLASH (str DQUOTE)
  else if (n =? 92)%N then String BACKSLASH (str BACKSLASH)
  else if (n <? 32)%N then UnicodeEscape n
  else str c.

(** The characters of a string between its quotes. *)
Fixpoint quote_body (s : string) : string :=
  match s with
  | EmptyString => EmptyString
  | String c1 rest =>
      match rest with
      | String c2 (String c3 rest') =>
          if surrogate_lead c1 c2
          then UnicodeEscape (surrogate_unit c2 c3) +:+ quote_body rest'
          else quote_char c1 +:+ quote_body rest
      | _ => quote_char c1 +:+ quote_body rest
      end
  end.

Definition QuoteJSONString (s : string) : string :=
  String DQUOTE (quote_body s +:+ str DQUOTE).

Definition number_to_json (n : number) : string :=
  if number_is_finite n then number_to_string n else "null".

(** The text of an array or object from the texts of its members. *)
Definition wrap (opening closing gap indent stepback : string)
    (partial : list string) : string :=
  match partial with
  | [] => opening +:+ closing
  | _ =>
      if String.eqb gap EmptyString
      then opening +:+ join "," partial +:+ closing
      else opening +:+ str LF +:+ indent
             +:+ join ("," +:+ str LF +:+ indent) partial
             +:+ str LF +:+ stepback +:+ closing
  end.

(** SerializeJSONProperty: [None] is [undefined], the value has no JSON
    text.  [gap] is the indentation unit, [indent] the current one. *)
Fixpoint SerializeJSONProperty (gap indent : string) (v : JsValue) : option string :=
  match v with
  | JUndefined => None
  | JNull => Some "null"
  | JBool true => Some "true"
  | JBool false => Some "false"
  | JNum n => Some (number_to_json n)
  | JStr s => Some (QuoteJSONString s)
  | JArr elems =>
      let inner := indent +:+ gap in
      Some (wrap "[" "]" gap inner indent
              (map (fun e =>
                      match SerializeJSONProperty gap inner e with
                      | Some t => t
                      | None => "null"
                      end) elems))
  | JObj props =>
      let inner := indent +:+ gap in
      let colon := if String.eqb gap EmptyString then ":" else ": " in
      Some (wrap "{" "}" gap inner indent
              (flat_map (fun p =>
                           match SerializeJSONProperty gap inner (snd p) with
                           | Some t => [QuoteJSONString (fst p) +:+ colon +:+ t]
                           | None => []
                           end) props))
  end.

(** [JSON.stringify(v)]. *)
Definition JSON_stringify (v : JsValue) : option string :=
  SerializeJSONProperty EmptyString EmptyString v.

(** [JSON.stringify(v, null, 2)]. *)
Definition JSON_stringify_pretty (v : JsValue) : option string :=
  SerializeJSONProperty "  " EmptyString v.

(** A value that may be [undefined], as a value. *)
Definition string_or_undefined (o : option string) : JsValue := optional JStr o.

End Values.

(** ** Asynchronous computations *)

Section Effects.
Context {Num : JsNumber}.

(** What a [catch] clause can receive: an instance of [Error] with its
    message, which is a string, or any other thrown value. *)
Inductive Thrown : Type :=
  | ErrorObject (message : string)
  | ThrownValue (v : JsValue).

(** How a promise settles. *)
Inductive Settled (A : Type) : Type :=
  | Fulfilled (a : A)
  | Rejected (e : Thrown).
#[global] Arguments Fulfilled {A} a.
#[global] Arguments Rejected {A} e.

Inductive Method : Type := GET | POST | PUT | DELETE.

(** The second argument of [fetch]; [body := None] is [body: undefined]. *)
Record RequestInit : Type := {
  method : Method;
  headers : gmap string string;
  body : option string;
}.

(** The part of a fetch [Response] that the client reads: [ok], [status],
    and what [text()] and [json()] settle to. *)
Record Response : Type := {
  ok : bool;
  status : N;
  response_text : Settled string;
  response_json : Settled JsValue;
}.

(** A call that leaves the adapter. *)
Inductive Call : Type :=
  | CallCreatePrediction (params : JsObject)
  | CallRequest (method : Method) (endpoint : string) (body : JsValue)
  | CallFetch (url : string) (init : RequestInit).

(** The calls made, in order, and the way the computation settles. *)
Definition Async (A : Type) : Type := list Call * Settled A.

Definition ret {A : Type} (a : A) : Async A := ([], Fulfilled a).

Definition throw {A : Type} (e : Thrown) : Async A := ([], Rejected e).

Definition settle {A : Type} (s : Settled A) : Async A := ([], s).

Definition emit (c : Call) : Async unit := ([c], Fulfilled tt).

Definition bind {A B : Type} (m : Async A) (k : A -> Async B) : Async B :=
  match m with
  | (calls, Fulfilled a) => let (calls', r) := k a in (calls ++ calls', r)
  | (calls, Rejected e) => (calls, Rejected e)
  end.

(** [try { m } catch (error) { handler error }]. *)
Definition try_catch {A : Type} (m : Async A) (handler : Thrown -> Async A) : Async A :=
  match m with
  | (calls, Rejected e) => let (calls', r) := handler e in (calls ++ calls', r)
  | (calls, Fulfilled a) => (calls, Fulfilled a)
  end.

Definition calls {A : Type} (m : Async A) : list Call := fst m.
Definition outcome {A : Type} (m : Async A) : Settled A := snd m.

End Effects.

Notation "x <- m ;; k" := (bind m (fun x => k))
  (at level 100, m at next level, right associativity).
Notation "m ;;; k" := (bind m (fun _ => k))
  (at level 100, right associativity).

(** ** Transport client: flowise-api.ts *)

Section Transport.
Context {Num : JsNumber}.

Record FlowiseApiConfig : Type := {
  baseUrl : string;
  apiKey : string;
}.

Record FlowiseApiClient : Type := {
  request : Method -> string -> JsValue -> Async JsValue;
}.

(** The global [fetch]: how the network answers a request. *)
Definition Fetch : Type := string -> RequestInit -> Settled Response.

Definition call_fetch (fetch : Fetch) (url : string) (init : RequestInit) : Async Response :=
  emit (CallFetch url init) ;;; settle (fetch url init).

(** An omitted [body] argument is [undefined]. *)
Definition createFlowiseApiClient (fetch : Fetch) (config : FlowiseApiConfig)
    : FlowiseApiClient :=
  let baseUrl := baseUrl config in
  let apiKey := apiKey config in
  {| request := fun method endpoint body =>
       let url := baseUrl +:+ "/api/v1" +:+ endpoint in
       let headers : gmap string string :=
         {[ "Content-Type" := "application/json" ]} in
       let headers :=
         if ToBoolean (JStr apiKey)
         then <["Authorization" := "Bearer " +:+ apiKey]> headers
         else headers in
       response <- call_fetch fetch url
                     {| method := method;
                        headers := headers;
                        body := if ToBoolean body then JSON_stringify body else None |} ;;
       if negb (ok response) then
         errorText <- settle (response_text response) ;;
         throw (ErrorObject ("Flowise API error (" +:+ pretty (status response)
                               +:+ "): " +:+ errorText))
       else settle (response_json response) |}.

(** [process.env.NAME || fallback]. *)
Definition env_or (env : gmap string string) (name fallback : string) : string :=
  match js_or (optional JStr (env !! name)) (JStr fallback) with
  | JStr s => s
  | _ => fallback
  end.

Definition getDefaultConfig (env : gmap string string) : FlowiseApiConfig :=
  {| baseUrl := env_or env "FLOWISE_BASE_URL" "http://localhost:3000";
     apiKey := env_or env "FLOWISE_API_KEY" EmptyString |}.

End Transport.

(** ** encodeURIComponent *)

Section Encode.
Context {Num : JsNumber}.

(** The characters [encodeURIComponent] leaves as they are: letters, digits
    and [- _ . ! ~ * ' ( )]. *)
Definition uriUnescaped (c : ascii) : bool :=
  let n := N_of_ascii c in
  ((65 <=? n) && (n <=? 90) || (97 <=? n) && (n <=? 122) || (48 <=? n) && (n <=? 57)
   || (n =? 45) || (n =? 95) || (n =? 46) || (n =? 33) || (n =? 126)
   || (n =? 42) || (n =? 39) || (n =? 40) || (n =? 41))%N.

Definition percent (c : ascii) : string :=
  let n := N_of_ascii c in
  String "%" (String (hex_digit true (n / 16)) (str (hex_digit true (n mod 16)))).

Definition prepend (prefix : string) (r : Settled string) : Settled string :=
  match r with
  | Fulfilled s => Fulfilled (prefix +:+ s)
  | Rejected e => Rejected e
  end.

(** Every byte of the UTF-8 encoding of a character that is not left as it
    is becomes [%XX]; an unpaired surrogate throws a URIError. *)
Fixpoint encodeURIComponent (s : string) : Settled string :=
  match s with
  | EmptyString => Fulfilled EmptyString
  | String c rest =>
      if uriUnescaped c then prepend (str c) (encodeURIComponent rest)
      else
        match rest with
        | String c2 _ =>
            if surrogate_lead c c2 then Rejected (ErrorObject "URI malformed")
            else prepend (percent c) (encodeURIComponent rest)
        | EmptyString => prepend (percent c) (encodeURIComponent rest)
        end
  end.

End Encode.

(** ** Tool handlers: handlers.ts *)

Section Handlers.
Context {Num : JsNumber}.

Record ContentItem : Type := {
  type : string;
  text : option string;
}.

(** [isError := None] is a response without the [isError] property.  The
    [text] slot holds what [JSON.stringify] returned, which is [undefined]
    ([None]) for an [undefined] value. *)
Record ToolResponse : Type := {
  content : list ContentItem;
  isError : option bool;
}.

Record FlowiseSdkClient : Type := {
  createPrediction : JsObject -> Async JsValue;
}.

(** [await client.createPrediction(params)] and [await api.request(...)]:
    the call is made, then the client runs. *)
Definition call_createPrediction (client : FlowiseSdkClient) (params : JsObject)
    : Async JsValue :=
  emit (CallCreatePrediction params) ;;; createPrediction client params.

Definition call_request (api : FlowiseApiClient) (method : Method)
    (endpoint : string) (body : JsValue) : Async JsValue :=
  emit (CallRequest method endpoint body) ;;; request api method endpoint body.

Definition successResponse (data : JsValue) : ToolResponse :=
  {| content := [ {| type := "text"; text := JSON_stringify_pretty data |} ];
     isError := None |}.

Definition errorResponse (message : string) : ToolResponse :=
  {| content := [ {| type := "text"; text := Some message |} ];
     isError := Some true |}.

(** [error instanceof Error ? error.message : String(error)].  The
    expression is evaluated inside the [catch] block, where nothing catches
    the TypeError of a [String(error)] that fails (the message is the one
    V8 gives it). *)
Definition error_message (error : Thrown) : Settled string :=
  match error with
  | ErrorObject message => Fulfilled message
  | ThrownValue v =>
      match ToString v with
      | Some s => Fulfilled s
      | None => Rejected (ErrorObject "Cannot convert object to primitive value")
      end
  end.

(** The four prediction handlers take the parameter object as it is and
    spread it: [{ ...params, streaming: false }]. *)
Definition handleCreatePrediction (client : FlowiseSdkClient) (params : JsObject)
    : Async ToolResponse :=
  try_catch
    (response <- call_createPrediction client
                   (obj_set params "streaming" (JBool false)) ;;
     ret (successResponse response))
    (fun error =>
       message <- settle (error_message error) ;;
       ret (errorResponse ("Error running chatflow: " +:+ message))).

Definition handleCreatePredictionWithHistory (client : FlowiseSdkClient)
    (params : JsObject) : Async ToolResponse :=
  try_catch
    (response <- call_createPrediction client
                   (obj_set params "streaming" (JBool false)) ;;
     ret (successResponse response))
    (fun error =>
       message <- settle (error_message error) ;;
       ret (errorResponse ("Error running chatflow: " +:+ message))).

Definition handleCreatePredictionWithFiles (client : FlowiseSdkClient)
    (params : JsObject) : Async ToolResponse :=
  try_catch
    (response <- call_createPrediction client
                   (obj_set params "streaming" (JBool false)) ;;
     ret (successResponse response))
    (fun error =>
       message <- settle (error_message error) ;;
       ret (errorResponse ("Error running chatflow: " +:+ message))).

Definition handleCreatePredictionWithLead (client : FlowiseSdkClient)
    (params : JsObject) : Async ToolResponse :=
  try_catch
    (response <- call_createPrediction client
                   (obj_set params "streaming" (JBool false)) ;;
     ret (successResponse response))
    (fun error =>
       message <- settle (error_message error) ;;
       ret (errorResponse ("Error running chatflow: " +:+ message))).

Definition handleListChatflows (api : FlowiseApiClient) : Async ToolResponse :=
  try_catch
    (chatflows <- call_request api GET "/chatflows" JUndefined ;;
     ret (successResponse chatflows))
    (fun error =>
       message <- settle (error_message error) ;;
       ret (errorResponse ("Error listing chatflows: " +:+ message))).

Definition handleGetChatflow (api : FlowiseApiClient) (chatflowId : string)
    : Async ToolResponse :=
  try_catch
    (chatflow <- call_request api GET ("/chatflows/" +:+ chatflowId) JUndefined ;;
     ret (successResponse chatflow))
    (fun error =>
       message <- settle (error_message error) ;;
       ret (errorResponse ("Error getting chatflow: " +:+ message))).

Inductive ChatflowType : Type := CHATFLOW | AGENTFLOW | MULTIAGENT | ASSISTANT.

Definition ChatflowType_string (t : ChatflowType) : string :=
  match t with
  | CHATFLOW => "CHATFLOW"
  | AGENTFLOW => "AGENTFLOW"
  | MULTIAGENT => "MULTIAGENT"
  | ASSISTANT => "ASSISTANT"
  end.

(** The parameter object of [handleCreateChatflow]; [flowData] and
    [chatbotConfig] are objects. *)
Record CreateChatflowParams : Type := {
  create_name : string;
  create_flowData : JsObject;
  create_type : option ChatflowType;
  create_chatbotConfig : option JsObject;
}.

Definition handleCreateChatflow (api : FlowiseApiClient)
    (params : CreateChatflowParams) : Async ToolResponse :=
  let params_name := JStr (create_name params) in
  let params_flowData := JObj (create_flowData params) in
  let params_type :=
    optional (fun t => JStr (ChatflowType_string t)) (create_type params) in
  let params_chatbotConfig := optional JObj (create_chatbotConfig params) in
  try_catch
    (chatflow <- call_request api POST "/chatflows"
                   (JObj
                      [ ("name", params_name);
                        ("flowData", string_or_undefined (JSON_stringify params_flowData));
                        ("type", js_or params_type (JStr "CHATFLOW"));
                        ("chatbotConfig",
                          if ToBoolean params_chatbotConfig
                          then string_or_undefined (JSON_stringify params_chatbotConfig)
                          else JUndefined) ]) ;;
     ret (successResponse chatflow))
    (fun error =>
       message <- settle (error_message error) ;;
       ret (errorResponse ("Error creating chatflow: " +:+ message))).

(** The parameter object of [handleUpdateChatflow]. *)
Record UpdateChatflowParams : Type := {
  update_chatflowId : string;
  update_name : option string;
  update_flowData : option JsObject;
  update_chatbotConfig : option JsObject;
}.

Definition handleUpdateChatflow (api : FlowiseApiClient)
    (params : UpdateChatflowParams) : Async ToolResponse :=
  let params_name := optional JStr (update_name params) in
  let params_flowData := optional JObj (update_flowData params) in
  let params_chatbotConfig := optional JObj (update_chatbotConfig params) in
  try_catch
    (let updateData : JsObject := [] in
     let updateData :=
       if ToBoolean params_name then obj_set updateData "name" params_name
       else updateData in
     let updateData :=
       if ToBoolean params_flowData
       then obj_set updateData "flowData"
              (string_or_undefined (JSON_stringify params_flowData))
       else updateData in
     let updateData :=
       if ToBoolean params_chatbotConfig
       then obj_set updateData "chatbotConfig"
              (string_or_undefined (JSON_stringify params_chatbotConfig))
       else updateData in
     chatflow <- call_request api PUT
                   ("/chatflows/" +:+ update_chatflowId params)
                   (JObj updateData) ;;
     ret (successResponse chatflow))
    (fun error =>
       message <- settle (error_message error) ;;
       ret (errorResponse ("Error updating chatflow: " +:+ message))).

Definition handleDeleteChatflow (api : FlowiseApiClient) (chatflowId : string)
    : Async ToolResponse :=
  try_catch
    (result <- call_request api DELETE ("/chatflows/" +:+ chatflowId) JUndefined ;;
     ret (successResponse
            (JObj [ ("success", JBool true);
                    ("deleted", JStr chatflowId);
                    ("result", result) ])))
    (fun error =>
       message <- settle (error_message error) ;;
       ret (errorResponse ("Error deleting chatflow: " +:+ message))).

Definition handleListNodes (api : FlowiseApiClient) : Async ToolResponse :=
  try_catch
    (nodes <- call_request api GET "/nodes" JUndefined ;;
     ret (successResponse nodes))
    (fun error =>
       message <- settle (error_message error) ;;
       ret (errorResponse ("Error listing nodes: " +:+ message))).

Definition handleGetNodesByCategory (api : FlowiseApiClient) (category : string)
    : Async ToolResponse :=
  try_catch
    (encoded <- settle (encodeURIComponent category) ;;
     nodes <- call_request api GET ("/nodes/category/" +:+ encoded) JUndefined ;;
     ret (successResponse nodes))
    (fun error =>
       message <- settle (error_message error) ;;
       ret (errorResponse ("Error getting nodes by category: " +:+ message))).

Definition handleGetNode (api : FlowiseApiClient) (nodeName : string)
    : Async ToolResponse :=
  try_catch
    (encoded <- settle (encodeURIComponent nodeName) ;;
     node <- call_request api GET ("/nodes/" +:+ encoded) JUndefined ;;
     ret (successResponse node))
    (fun error =>
       message <- settle (error_message error) ;;
       ret (errorResponse ("Error getting node: " +:+ message))).

End Handlers.

(** ** The tool table: index.ts *)

Section Server.
Context {Num : JsNumber}.

(** A tool call that passed the schema of its tool, with its parameters. *)
Inductive ToolCall : Type :=
  | create_prediction (params : JsObject)
  | create_prediction_with_history (params : JsObject)
  | create_prediction_with_files (params : JsObject)
  | create_prediction_with_lead (params : JsObject)
  | list_chatflows
  | get_chatflow (chatflowId : string)
  | create_chatflow (params : CreateChatflowParams)
  | update_chatflow (params : UpdateChatflowParams)
  | delete_chatflow (chatflowId : string)
  | list_nodes
  | get_nodes_by_category (category : string)
  | get_node (nodeName : string).

Definition tool_name (call : ToolCall) : string :=
  match call with
  | create_prediction _ => "create_prediction"
  | create_prediction_with_history _ => "create_prediction_with_history"
  | create_prediction_with_files _ => "create_prediction_with_files"
  | create_prediction_with_lead _ => "create_prediction_with_lead"
  | list_chatflows => "list_chatflows"
  | get_chatflow _ => "get_chatflow"
  | create_chatflow _ => "create_chatflow"
  | update_chatflow _ => "update_chatflow"
  | delete_chatflow _ => "delete_chatflow"
  | list_nodes => "list_nodes"
  | get_nodes_by_category _ => "get_nodes_by_category"
  | get_node _ => "get_node"
  end.

(** The callback registered with [server.tool] for each tool. *)
Definition dispatch (flowiseClient : FlowiseSdkClient) (flowiseApi : FlowiseApiClient)
    (call : ToolCall) : Async ToolResponse :=
  match call with
  | create_prediction params => handleCreatePrediction flowiseClient params
  | create_prediction_with_history params =>
      handleCreatePredictionWithHistory flowiseClient params
  | create_prediction_with_files params =>
      handleCreatePredictionWithFiles flowiseClient params
  | create_prediction_with_lead params =>
      handleCreatePredictionWithLead flowiseClient params
  | list_chatflows => handleListChatflows flowiseApi
  | get_chatflow chatflowId => handleGetChatflow flowiseApi chatflowId
  | create_chatflow params => handleCreateChatflow flowiseApi params
  | update_chatflow params => handleUpdateChatflow flowiseApi params
  | delete_chatflow chatflowId => handleDeleteChatflow flowiseApi chatflowId
  | list_nodes => handleListNodes flowiseApi
  | get_nodes_by_category category => handleGetNodesByCategory flowiseApi category
  | get_node nodeName => handleGetNode flowiseApi nodeName
  end.

(** Test doubles, as in handlers.test.ts: a client whose method settles
    the same way whatever it is called with. *)
Definition mockSdkClient (s : Settled JsValue) : FlowiseSdkClient :=
  {| createPrediction := fun _ => settle s |}.

Definition mockApiClient (s : Settled JsValue) : FlowiseApiClient :=
  {| request := fun _ _ _ => settle s |}.

End Server.

(** ** index.ts with the handlers inline *)

(** The single-file form of the server: [flowiseApi] is the transport
    client's [request] written as a function over two module-level
    constants, and each tool callback holds its handler in place. *)

Section Inline.
Context {Num : JsNumber}.

(** The environment the module reads once, the global [fetch], and the SDK
    client it builds. *)
Variable env : gmap string string.
Variable fetch : Fetch.
Variable flowiseClient : FlowiseSdkClient.

Definition FLOWISE_BASE_URL : string :=
  env_or env "FLOWISE_BASE_URL" "http://localhost:3000".

Definition FLOWISE_API_KEY : string := env_or env "FLOWISE_API_KEY" EmptyString.

Definition flowiseApi (method : Method) (endpoint : string) (body : JsValue)
    : Async JsValue :=
  let url := FLOWISE_BASE_URL +:+ "/api/v1" +:+ endpoint in
  let headers : gmap string string :=
    {[ "Content-Type" := "application/json" ]} in
  let headers :=
    if ToBoolean (JStr FLOWISE_API_KEY)
    then <["Authorization" := "Bearer " +:+ FLOWISE_API_KEY]> headers
    else headers in
  response <- call_fetch fetch url
                {| method := method;
                   headers := headers;
                   body := if ToBoolean body then JSON_stringify body else None |} ;;
  if negb (ok response) then
    errorText <- settle (response_text response) ;;
    throw (ErrorObject ("Flowise API error (" +:+ pretty (status response)
                          +:+ "): " +:+ errorText))
  else settle (response_json response).

(** [await flowiseApi(...)], recorded like a call of [request]. *)
Definition call_flowiseApi (method : Method) (endpoint : string) (body : JsValue)
    : Async JsValue :=
  emit (CallRequest method endpoint body) ;;; flowiseApi method endpoint body.

(** The two object literals every callback returns. *)
Definition text_result (data : JsValue) : ToolResponse :=
  {| content := [ {| type := "text"; text := JSON_stringify_pretty data |} ];
     isError := None |}.

Definition text_error (message : string) : ToolResponse :=
  {| content := [ {| type := "text"; text := Some message |} ];
     isError := Some true |}.

(** The prediction callbacks destructure their parameters and build the
    argument property by property. *)
Definition tool_create_prediction (params : JsObject) : Async ToolResponse :=
  let chatflowId := obj_get params "chatflowId" in
  let question := obj_get params "question" in
  let chatId := obj_get params "chatId" in
  let overrideConfig := obj_get params "overrideConfig" in
  try_catch
    (response <- call_createPrediction flowiseClient
                   [ ("chatflowId", chatflowId);
                     ("question", question);
                     ("chatId", chatId);
                     ("overrideConfig", overrideConfig);
                     ("streaming", JBool false) ] ;;
     ret (text_result response))
    (fun error =>
       errorMessage <- settle (error_message error) ;;
       ret (text_error ("Error running chatflow: " +:+ errorMessage))).

Definition tool_create_prediction_with_history (params : JsObject)
    : Async ToolResponse :=
  let chatflowId := obj_get params "chatflowId" in
  let question := obj_get params "question" in
  let history := obj_get params "history" in
  let chatId := obj_get params "chatId" in
  let overrideConfig := obj_get params "overrideConfig" in
  try_catch
    (response <- call_createPrediction flowiseClient
                   [ ("chatflowId", chatflowId);
                     ("question", question);
                     ("history", history);
                     ("chatId", chatId);
                     ("overrideConfig", overrideConfig);
                     ("streaming", JBool false) ] ;;
     ret (text_result response))
    (fun error =>
       errorMessage <- settle (error_message error) ;;
       ret (text_error ("Error running chatflow: " +:+ errorMessage))).

Definition tool_create_prediction_with_files (params : JsObject)
    : Async ToolResponse :=
  let chatflowId := obj_get params "chatflowId" in
  let question := obj_get params "question" in
  let uploads := obj_get params "uploads" in
  let chatId := obj_get params "chatId" in
  let overrideConfig := obj_get params "overrideConfig" in
  try_catch
    (response <- call_createPrediction flowiseClient
                   [ ("chatflowId", chatflowId);
                     ("question", question);
                     ("uploads", uploads);
                     ("chatId", chatId);
                     ("overrideConfig", overrideConfig);
                     ("streaming", JBool false) ] ;;
     ret (text_result response))
    (fun error =>
       errorMessage <- settle (error_message error) ;;
       ret (text_error ("Error running chatflow: " +:+ errorMessage))).

Definition tool_create_prediction_with_lead (params : JsObject)
    : Async ToolResponse :=
  let chatflowId := obj_get params "chatflowId" in
  let question := obj_get params "question" in
  let leadEmail := obj_get params "leadEmail" in
  let chatId := obj_get params "chatId" in
  let overrideConfig := obj_get params "overrideConfig" in
  try_catch
    (response <- call_createPrediction flowiseClient
                   [ ("chatflowId", chatflowId);
                     ("question", question);
                     ("leadEmail", leadEmail);
                     ("chatId", chatId);
                     ("overrideConfig", overrideConfig);
                     ("streaming", JBool false) ] ;;
     ret (text_result response))
    (fun error =>
       errorMessage <- settle (error_message error) ;;
       ret (text_error ("Error running chatflow: " +:+ errorMessage))).

Definition tool_list_chatflows : Async ToolResponse :=
  try_catch
    (chatflows <- call_flowiseApi GET "/chatflows" JUndefined ;;
     ret (text_result chatflows))
    (fun error =>
       errorMessage <- settle (error_message error) ;;
       ret (text_error ("Error listing chatflows: " +:+ errorMessage))).

Definition tool_get_chatflow (chatflowId : string) : Async ToolResponse :=
  try_catch
    (chatflow <- call_flowiseApi GET ("/chatflows/" +:+ chatflowId) JUndefined ;;
     ret (text_result chatflow))
    (fun error =>
       errorMessage <- settle (error_message error) ;;
       ret (text_error ("Error getting chatflow: " +:+ errorMessage))).

Definition tool_create_chatflow (params : CreateChatflowParams) : Async ToolResponse :=
  let name := JStr (create_name params) in
  let flowData := JObj (create_flowData params) in
  let type := optional (fun t => JStr (ChatflowType_string t)) (create_type params) in
  let chatbotConfig := optional JObj (create_chatbotConfig params) in
  try_catch
    (chatflow <- call_flowiseApi POST "/chatflows"
                   (JObj
                      [ ("name", name);
                        ("flowData", string_or_undefined (JSON_stringify flowData));
                        ("type", js_or type (JStr "CHATFLOW"));
                        ("chatbotConfig",
                          if ToBoolean chatbotConfig
                          then string_or_undefined (JSON_stringify chatbotConfig)
                          else JUndefined) ]) ;;
     ret (text_result chatflow))
    (fun error =>
       errorMessage <- settle (error_message error) ;;
       ret (text_error ("Error creating chatflow: " +:+ errorMessage))).

Definition tool_update_chatflow (params : UpdateChatflowParams) : Async ToolResponse :=
  let chatflowId := update_chatflowId params in
  let name := optional JStr (update_name params) in
  let flowData := optional JObj (update_flowData params) in
  let chatbotConfig := optional JObj (update_chatbotConfig params) in
  try_catch
    (let updateData : JsObject := [] in
     let updateData :=
       if ToBoolean name then obj_set updateData "name" name else updateData in
     let updateData :=
       if ToBoolean flowData
       then obj_set updateData "flowData" (string_or_undefined (JSON_stringify flowData))
       else updateData in
     let updateData :=
       if ToBoolean chatbotConfig
       then obj_set updateData "chatbotConfig"
              (string_or_undefined (JSON_stringify chatbotConfig))
       else updateData in
     chatflow <- call_flowiseApi PUT ("/chatflows/" +:+ chatflowId) (JObj updateData) ;;
     ret (text_result chatflow))
    (fun error =>
       errorMessage <- settle (error_message error) ;;
       ret (text_error ("Error updating chatflow: " +:+ errorMessage))).

Definition tool_delete_chatflow (chatflowId : string) : Async ToolResponse :=
  try_catch
    (result <- call_flowiseApi DELETE ("/chatflows/" +:+ chatflowId) JUndefined ;;
     ret (text_result
            (JObj [ ("success", JBool true);
                    ("deleted", JStr chatflowId);
                    ("result", result) ])))
    (fun error =>
       errorMessage <- settle (error_message error) ;;
       ret (text_error ("Error deleting chatflow: " +:+ errorMessage))).

Definition tool_list_nodes : Async ToolResponse :=
  try_catch
    (nodes <- call_flowiseApi GET "/nodes" JUndefined ;;
     ret (text_result nodes))
    (fun error =>
       errorMessage <- settle (error_message error) ;;
       ret (text_error ("Error listing nodes: " +:+ errorMessage))).

Definition tool_get_nodes_by_category (category : string) : Async ToolResponse :=
  try_catch
    (encoded <- settle (encodeURIComponent category) ;;
     nodes <- call_flowiseApi GET ("/nodes/category/" +:+ encoded) JUndefined ;;
     ret (text_result nodes))
    (fun error =>
       errorMessage <- settle (error_message error) ;;
       ret (text_error ("Error getting nodes by category: " +:+ errorMessage))).

Definition tool_get_node (nodeName : string) : Async ToolResponse :=
  try_catch
    (encoded <- settle (encodeURIComponent nodeName) ;;
     node <- call_flowiseApi GET ("/nodes/" +:+ encoded) JUndefined ;;
     ret (text_result node))
    (fun error =>
       errorMessage <- settle (error_message error) ;;
       ret (text_error ("Error getting node: " +:+ errorMessage))).

Definition dispatch_inline (call : ToolCall) : Async ToolResponse :=
  match call with
  | create_prediction params => tool_create_prediction params
  | create_prediction_with_history params => tool_create_prediction_with_history params
  | create_prediction_with_files params => tool_create_prediction_with_files params
  | create_prediction_with_lead params => tool_create_prediction_with_lead params
  | list_chatflows => tool_list_chatflows
  | get_chatflow chatflowId => tool_get_chatflow chatflowId
  | create_chatflow params => tool_create_chatflow params
  | update_chatflow params => tool_update_chatflow params
  | delete_chatflow chatflowId => tool_delete_chatflow chatflowId
  | list_nodes => tool_list_nodes
  | get_nodes_by_category category => tool_get_nodes_by_category category
  | get_node nodeName => tool_get_node nodeName
  end.

End Inline.

(** ** Start-up: the end of index.ts *)

Section Startup.
Context {Num : JsNumber}.

(** What the process does at start-up besides registering its tools:
    [server.connect(transport)], [console.error(message)] or
    [console.error(message, error)], and [process.exit(code)]. *)
Inductive ProcessEvent : Type :=
  | ServerConnect
  | ConsoleError (message : string) (error : option Thrown)
  | ProcessExit (code : N).

(** [main()], given how [server.connect(transport)] settles. *)
Definition main (connect : Settled unit) : list ProcessEvent * Settled unit :=
  match connect with
  | Fulfilled _ =>
      ([ServerConnect; ConsoleError "Flowise MCP server running on stdio" None],
       Fulfilled tt)
  | Rejected error => ([ServerConnect], Rejected error)
  end.

(** [main().catch((error) => { ... })]: what a start of the process does. *)
Definition start (connect : Settled unit) : list ProcessEvent :=
  match main connect with
  | (events, Fulfilled _) => events
  | (events, Rejected error) =>
      events ++ [ConsoleError "Fatal error:" (Some error); ProcessExit 1]
  end.

End Startup.

(** * Vocabulary of the properties *)

Section Vocabulary.
Context {Num : JsNumber}.

(** What the collaborators answer to a call. *)
Definition answer (sdk : FlowiseSdkClient) (api : FlowiseApiClient) (c : Call)
    : option (Settled JsValue) :=
  match c with
  | CallCreatePrediction params => Some (outcome (createPrediction sdk params))
  | CallRequest m endpoint b => Some (outcome (request api m endpoint b))
  | CallFetch _ _ => None
  end.

(** A handler that calls [createPrediction] once, with [streaming: false]
    and every other property of the parameter object as the caller gave it. *)
Definition forces_streaming_false
    (handler : FlowiseSdkClient -> JsObject -> Async ToolResponse) : Prop :=
  forall (client : FlowiseSdkClient) (params : JsObject),
  exists sent,
    calls (handler client params) =
      CallCreatePrediction sent :: calls (createPrediction client sent)
    /\ obj_has sent "streaming" = true
    /\ obj_get sent "streaming" = JBool false
    /\ forall k, k <> "streaming" -> obj_get sent k = obj_get params k.

(** The text [JSON.stringify] gives for an object: it always gives one. *)
Definition object_json (o : JsObject) : string :=
  default EmptyString (JSON_stringify (JObj o)).

(** The string holds an unpaired surrogate. *)
Fixpoint has_surrogate (s : string) : bool :=
  match s with
  | String c1 (String c2 _ as rest) => surrogate_lead c1 c2 || has_surrogate rest
  | _ => false
  end.

(** The percent-encoding of a string, byte by byte. *)
Fixpoint percent_encode (s : string) : string :=
  match s with
  | EmptyString => EmptyString
  | String c rest =>
      (if uriUnescaped c then str c else percent c) +:+ percent_encode rest
  end.

(** The string holds a character that [encodeURIComponent] escapes. *)
Fixpoint has_escaped (s : string) : bool :=
  match s with
  | EmptyString => false
  | String c rest => negb (uriUnescaped c) || has_escaped rest
  end.

(** [s] between double quotes, as it is. *)
Definition quoted (s : string) : string := String DQUOTE (s +:+ str DQUOTE).

(** No character of the string is escaped by [JSON.stringify]: no control
    character, double quote, backslash or unpaired surrogate. *)
Fixpoint json_plain (s : string) : bool :=
  match s with
  | EmptyString => true
  | String c rest =>
      let n := N_of_ascii c in
      (negb (n <? 32) && negb (n =? 34) && negb (n =? 92))%N
      && negb match rest with
              | String c2 _ => surrogate_lead c c2
              | EmptyString => false
              end
      && json_plain rest
  end.

(** What follows the deleted property in the text of the response. *)
Definition result_tail (result : JsValue) : string :=
  match SerializeJSONProperty "  " "  " result with
  | Some t =>
      "," +:+ str LF +:+ "  " +:+ quoted "result" +:+ ": " +:+ t +:+ str LF +:+ "}"
  | None => str LF +:+ "}"
  end.

(** The text that each handler puts before the message of a caught error. *)
Definition error_prefix (call : ToolCall) : string :=
  match call with
  | create_prediction _ | create_prediction_with_history _
  | create_prediction_with_files _ | create_prediction_with_lead _ =>
      "Error running chatflow: "
  | list_chatflows => "Error listing chatflows: "
  | get_chatflow _ => "Error getting chatflow: "
  | create_chatflow _ => "Error creating chatflow: "
  | update_chatflow _ => "Error updating chatflow: "
  | delete_chatflow _ => "Error deleting chatflow: "
  | list_nodes => "Error listing nodes: "
  | get_nodes_by_category _ => "Error getting nodes by category: "
  | get_node _ => "Error getting node: "
  end.

(** The value a handler wraps when its call is fulfilled with [v]. *)
Definition result_data (call : ToolCall) (v : JsValue) : JsValue :=
  match call with
  | delete_chatflow chatflowId =>
      JObj [("success", JBool true); ("deleted", JStr chatflowId); ("result", v)]
  | _ => v
  end.

(** How a handler settles once its one call has settled as [s]: with the
    success response, with the error response, or, when the thrown value
    has no string form, rejected by its own catch block. *)
Definition response_for (call : ToolCall) (s : Settled JsValue) : Settled ToolResponse :=
  match s with
  | Fulfilled v => Fulfilled (successResponse (result_data call v))
  | Rejected e =>
      match error_message e with
      | Fulfilled message => Fulfilled (errorResponse (error_prefix call +:+ message))
      | Rejected thrown => Rejected thrown
      end
  end.



(** The reserved characters of a URI: [; / ? : @ & = + $ ,]. *)
Definition uriReserved (c : ascii) : bool :=
  let n := N_of_ascii c in
  ((n =? 59) || (n =? 47) || (n =? 63) || (n =? 58) || (n =? 64)
   || (n =? 38) || (n =? 61) || (n =? 43) || (n =? 36) || (n =? 44))%N.

(** The string holds a reserved character. *)
Fixpoint has_reserved (s : string) : bool :=
  match s with
  | EmptyString => false
  | String c rest => uriReserved c || has_reserved rest
  end.

(** A prediction callback that calls [createPrediction] once, with
    [streaming: false]. *)
Definition sends_streaming_false
    (handler : FlowiseSdkClient -> JsObject -> Async ToolResponse) : Prop :=
  forall (client : FlowiseSdkClient) (params : JsObject),
  exists sent,
    calls (handler client params) =
      CallCreatePrediction sent :: calls (createPrediction client sent)
    /\ obj_has sent "streaming" = true
    /\ obj_get sent "streaming" = JBool false.

End Vocabulary.

(** ** Data of the concrete runs *)

(** The network of these runs answers every request with 200 and an empty
    object. *)
Definition fetch_ok : Fetch :=
  fun _ _ =>
    Fulfilled {| ok := true; status := 200;
                 response_text := Fulfilled "{}";
                 response_json := Fulfilled (JObj []) |}.

Definition localhost : FlowiseApiConfig :=
  {| baseUrl := "http://localhost:3000"; apiKey := EmptyString |}.

(** An unpaired high surrogate, U+D800. *)
Definition lone_surrogate : string := String "237" (String "160" (str "128")).

(** The object [{ toString: 1 }]: its toString is no method. *)
Definition no_string_form : JsValue :=
  JObj [("toString", JNum {| integer := 1; integer_safe := eq_refl |})].

(** * Vocabulary of the further properties *)

Section FurtherVocabulary.
Context {Num : JsNumber}.

(** The tool goes through the SDK client, not through the transport client. *)
Definition uses_sdk (call : ToolCall) : bool :=
  match call with
  | create_prediction _ | create_prediction_with_history _
  | create_prediction_with_files _ | create_prediction_with_lead _ => true
  | _ => false
  end.

(** The argument of a node tool cannot be percent-encoded. *)
Definition malformed (call : ToolCall) : bool :=
  match call with
  | get_nodes_by_category category => has_surrogate category
  | get_node nodeName => has_surrogate nodeName
  | _ => false
  end.

(** A network that gives the same answer to every request. *)
Definition answering (answer : Settled Response) : Fetch := fun _ _ => answer.

(** The payloads of create_chatflow and update_chatflow. *)
Definition create_payload (params : CreateChatflowParams) : JsObject :=
  [ ("name", JStr (create_name params));
    ("flowData", JStr (object_json (create_flowData params)));
    ("type", JStr match create_type params with
                  | Some t => ChatflowType_string t
                  | None => "CHATFLOW"
                  end);
    ("chatbotConfig", match create_chatbotConfig params with
                      | Some chatbotConfig => JStr (object_json chatbotConfig)
                      | None => JUndefined
                      end) ].

Definition update_payload (params : UpdateChatflowParams) : JsObject :=
  match update_name params with
  | Some name => if String.eqb name EmptyString then [] else [("name", JStr name)]
  | None => []
  end ++
  match update_flowData params with
  | Some flowData => [("flowData", JStr (object_json flowData))]
  | None => []
  end ++
  match update_chatbotConfig params with
  | Some chatbotConfig => [("chatbotConfig", JStr (object_json chatbotConfig))]
  | None => []
  end.

(** The request a tool makes on the transport client: none for the
    prediction tools and for a node tool whose argument cannot be encoded. *)
Definition tool_request (call : ToolCall) : option (Method * string * JsValue) :=
  match call with
  | create_prediction _ | create_prediction_with_history _
  | create_prediction_with_files _ | create_prediction_with_lead _ => None
  | list_chatflows => Some (GET, "/chatflows", JUndefined)
  | get_chatflow chatflowId => Some (GET, "/chatflows/" +:+ chatflowId, JUndefined)
  | create_chatflow params => Some (POST, "/chatflows", JObj (create_payload params))
  | update_chatflow params =>
      Some (PUT, "/chatflows/" +:+ update_chatflowId params,
            JObj (update_payload params))
  | delete_chatflow chatflowId =>
      Some (DELETE, "/chatflows/" +:+ chatflowId, JUndefined)
  | list_nodes => Some (GET, "/nodes", JUndefined)
  | get_nodes_by_category category =>
      if has_surrogate category then None
      else Some (GET, "/nodes/category/" +:+ percent_encode category, JUndefined)
  | get_node nodeName =>
      if has_surrogate nodeName then None
      else Some (GET, "/nodes/" +:+ percent_encode nodeName, JUndefined)
  end.

(** Every character of the string passes the test. *)
Fixpoint all_chars (test : ascii -> bool) (s : string) : bool :=
  match s with
  | EmptyString => true
  | String c rest => test c && all_chars test rest
  end.

(** A character that cannot end a path segment or start a query: a letter,
    a digit, one of [- _ . ! ~ * ' ( )], or the percent sign. *)
Definition uriSafe (c : ascii) : bool :=
  uriUnescaped c || (N_of_ascii c =? 37)%N.

(** The value of a hexadecimal digit, upper case. *)
Definition hex_value (c : ascii) : N :=
  let n := N_of_ascii c in
  if (n <? 58)%N then (n - 48)%N else (n - 55)%N.

(** Percent-decoding: [%XY] is the byte of value XY, any other character
    is itself. *)
Fixpoint percent_decode (s : string) : string :=
  match s with
  | EmptyString => EmptyString
  | String c rest =>
      if (N_of_ascii c =? 37)%N then
        match rest with
        | String h1 (String h2 rest') =>
            String (ascii_of_N (16 * hex_value h1 + hex_value h2))
              (percent_decode rest')
        | _ => String c (percent_decode rest)
        end
      else String c (percent_decode rest)
  end.

(** A prediction handler that hands over every property of the parameter
    object: the names in the order of the caller, with streaming last when
    the caller gave none; every property but streaming at its place with its
    value; streaming with the value false. *)
Definition keeps_properties
    (handler : FlowiseSdkClient -> JsObject -> Async ToolResponse) : Prop :=
  forall (client : FlowiseSdkClient) (params : JsObject),
  exists sent,
    calls (handler client params) =
      CallCreatePrediction sent :: calls (createPrediction client sent)
    /\ map fst sent =
         (if obj_has params "streaming" then map fst params
          else map fst params ++ ["streaming"])
    /\ (forall (i : nat) (k : string) (v : JsValue),
          params !! i = Some (k, v) -> k <> "streaming" -> sent !! i = Some (k, v))
    /\ obj_get sent "streaming" = JBool false.

(** The names a prediction callback of the single-file index.ts forwards. *)
Definition forwards (names : list string)
    (handler : FlowiseSdkClient -> JsObject -> Async ToolResponse) : Prop :=
  forall (client : FlowiseSdkClient) (params : JsObject),
  exists sent,
    calls (handler client params) =
      CallCreatePrediction sent :: calls (createPrediction client sent)
    /\ map fst sent = names ++ ["streaming"]
    /\ Forall (fun k =>
                 obj_get sent k = obj_get (obj_set params "streaming" (JBool false)) k)
         ("streaming" :: names).

End FurtherVocabulary.

(** ** Data of the further runs *)

(** Three answers of the backing API: an empty object, an unknown chatflow,
    and a page that is not JSON. *)
Definition response_ok : Response :=
  {| ok := true; status := 200;
     response_text := Fulfilled "{}";
     response_json := Fulfilled (JObj []) |}.

Definition response_not_found : Response :=
  {| ok := false; status := 404;
     response_text := Fulfilled "Chatflow not found";
     response_json := Fulfilled JNull |}.

Definition response_not_json : Response :=
  {| ok := true; status := 200;
     response_text := Fulfilled "<html>";
     response_json := Rejected (ErrorObject "Unexpected token") |}.

(** * Properties *)

#[local] Arguments String.append !_ _ / : simpl nomatch.

Section Properties.
Context {Num : JsNumber}.

(** ** Objects *)

Lemma obj_get_set_eq (o : JsObject) (k : string) (v : JsValue) :
  obj_get (obj_set o k v) k = v.
Proof.
  induction o as [|[k' v'] rest IH]; simpl.
  - now rewrite String.eqb_refl.
  - destruct (String.eqb k' k) eqn:E; simpl; rewrite E; [reflexivity | exact IH].
Qed.

Lemma obj_has_set_eq (o : JsObject) (k : string) (v : JsValue) :
  obj_has (obj_set o k v) k = true.
Proof.
  induction o as [|[k' v'] rest IH]; simpl.
  - now rewrite String.eqb_refl.
  - destruct (String.eqb k' k) eqn:E; simpl; rewrite E; [reflexivity | exact IH].
Qed.

Lemma obj_get_set_ne (o : JsObject) (k k' : string) (v : JsValue) :
  k <> k' -> obj_get (obj_set o k v) k' = obj_get o k'.
Proof.
  intros Hne. induction o as [|[k0 v0] rest IH]; simpl.
  - destruct (String.eqb k k') eqn:E; [|reflexivity].
    apply String.eqb_eq in E. contradiction.
  - destruct (String.eqb k0 k) eqn:E; simpl.
    + apply String.eqb_eq in E. subst k0.
      destruct (String.eqb k k') eqn:E'; [|reflexivity].
      apply String.eqb_eq in E'. contradiction.
    + now rewrite IH.
Qed.

(** ** Strings *)

Lemma append_assoc (a b c : string) : (a +:+ b) +:+ c = a +:+ (b +:+ c).
Proof. induction a as [|x a IH]; simpl; [reflexivity | now rewrite IH]. Qed.

Lemma length_append (a b : string) :
  String.length (a +:+ b) = String.length a + String.length b.
Proof. induction a as [|x a IH]; simpl; [reflexivity | now rewrite IH]. Qed.

Lemma prefix_append (s rest : string) : String.prefix s (s +:+ rest) = true.
Proof.
  induction s as [|c s IH]; simpl.
  - now destruct rest.
  - destruct (ascii_dec c c) as [_|Hne]; [exact IH | now destruct Hne].
Qed.

Lemma includes_prefix (text s : string) :
  String.prefix s text = true -> includes text s = true.
Proof. intros H. destruct text; cbn [includes]; rewrite H; reflexivity. Qed.

Lemma includes_later (c : ascii) (text s : string) :
  includes text s = true -> includes (String c text) s = true.
Proof. intros H. cbn [includes]. rewrite H. apply orb_true_r. Qed.

(** A text includes each of its parts. *)
Lemma includes_part (before s after : string) :
  includes (before +:+ s +:+ after) s = true.
Proof.
  induction before as [|c before IH]; simpl.
  - apply includes_prefix, prefix_append.
  - apply includes_later, IH.
Qed.

(** ** The monad *)

Lemma calls_bind_emit {A : Type} (c : Call) (m : Async A) :
  calls (emit c ;;; m) = c :: calls m.
Proof. unfold calls, bind, emit. now destruct m as [cs r]. Qed.

Lemma outcome_bind_emit {A : Type} (c : Call) (m : Async A) :
  outcome (emit c ;;; m) = outcome m.
Proof. unfold outcome, bind, emit. now destruct m as [cs r]. Qed.

(** ** The transport client *)

(** The one [fetch] of a request, whatever the network answers. *)
Lemma request_calls (fetch : Fetch) (config : FlowiseApiConfig) (m : Method)
    (endpoint : string) (b : JsValue) :
  calls (request (createFlowiseApiClient fetch config) m endpoint b) =
  [CallFetch (baseUrl config +:+ "/api/v1" +:+ endpoint)
     {| method := m;
        headers :=
          if ToBoolean (JStr (apiKey config))
          then <["Authorization" := "Bearer " +:+ apiKey config]>
                 {[ "Content-Type" := "application/json" ]}
          else {[ "Content-Type" := "application/json" ]};
        body := if ToBoolean b then JSON_stringify b else None |}].
Proof.
  unfold createFlowiseApiClient, request, call_fetch, calls, bind, emit, settle, throw.
  destruct (fetch _ _) as [response|e]; [|reflexivity].
  destruct (ok response); simpl; [reflexivity|].
  destruct (response_text response); reflexivity.
Qed.

(** A value that passes [if (x)] has a JSON text. *)
Lemma truthy_has_json (v : JsValue) :
  ToBoolean v = true -> exists t, JSON_stringify v = Some t.
Proof.
  destruct v as [| |b|n|s|elems|props]; simpl; try discriminate; intros _;
    try (eexists; reflexivity).
  destruct b; eexists; reflexivity.
Qed.

(** C4. For every request of the transport client the outbound HTTP request
    has header Content-Type: application/json; it has no Authorization header
    when apiKey is the empty string, and Authorization is Bearer followed by
    apiKey for every other apiKey. *)
Theorem request_headers (fetch : Fetch) (config : FlowiseApiConfig) (m : Method)
    (endpoint : string) (b : JsValue) :
  exists init,
    calls (request (createFlowiseApiClient fetch config) m endpoint b) =
      [CallFetch (baseUrl config +:+ "/api/v1" +:+ endpoint) init]
    /\ headers init !! "Content-Type" = Some "application/json"
    /\ headers init !! "Authorization" =
         (if String.eqb (apiKey config) EmptyString then None
          else Some ("Bearer " +:+ apiKey config)).
Proof.
  eexists. split; [apply request_calls|]. cbn [headers ToBoolean].
  destruct (String.eqb (apiKey config) EmptyString); cbn [negb]; split.
  - apply lookup_singleton_eq.
  - now apply lookup_singleton_ne.
  - rewrite lookup_insert_ne by discriminate. apply lookup_singleton_eq.
  - apply lookup_insert_eq.
Qed.

(** C2, as the code has it. No HTTP body is sent when the body argument is
    omitted or is any other value that fails [if (body)] (null, false, zero,
    NaN, the empty string); for every other value the HTTP body is exactly
    its JSON serialisation. *)
Theorem request_body (fetch : Fetch) (config : FlowiseApiConfig) (m : Method)
    (endpoint : string) (b : JsValue) :
  (exists init,
     calls (request (createFlowiseApiClient fetch config) m endpoint JUndefined) =
       [CallFetch (baseUrl config +:+ "/api/v1" +:+ endpoint) init]
     /\ body init = None)
  /\ (exists init,
        calls (request (createFlowiseApiClient fetch config) m endpoint b) =
          [CallFetch (baseUrl config +:+ "/api/v1" +:+ endpoint) init]
        /\ match body init with
           | None => ToBoolean b = false
           | Some sent => ToBoolean b = true /\ JSON_stringify b = Some sent
           end).
Proof.
  split; (eexists; split; [apply request_calls|]); cbn [body]; [reflexivity|].
  destruct (ToBoolean b) eqn:Hb; [|reflexivity].
  destruct (truthy_has_json b Hb) as [t Ht]. rewrite Ht. now split.
Qed.

(** ** The prediction handlers *)

Lemma prediction_calls (client : FlowiseSdkClient) (params : JsObject)
    (prefix : string) :
  calls
    (try_catch
       (response <- call_createPrediction client
                      (obj_set params "streaming" (JBool false)) ;;
        ret (successResponse response))
       (fun error =>
          message <- settle (error_message error) ;;
          ret (errorResponse (prefix +:+ message)))) =
  CallCreatePrediction (obj_set params "streaming" (JBool false))
    :: calls (createPrediction client (obj_set params "streaming" (JBool false))).
Proof.
  unfold call_createPrediction, calls, try_catch, bind, emit, ret, settle.
  destruct (createPrediction client _) as [cs [v|e]]; simpl;
    [|destruct (error_message e); simpl]; now rewrite ?app_nil_r.
Qed.

(** C3. Each of the four prediction handlers calls createPrediction with
    streaming equal to false, for every client and every parameter object
    (also one that carries a streaming property of its own). *)
Theorem prediction_streaming_false :
  forces_streaming_false handleCreatePrediction
  /\ forces_streaming_false handleCreatePredictionWithHistory
  /\ forces_streaming_false handleCreatePredictionWithFiles
  /\ forces_streaming_false handleCreatePredictionWithLead.
Proof.
  repeat split; intros client params;
    exists (obj_set params "streaming" (JBool false));
    (split; [apply prediction_calls|]);
    (split; [apply obj_has_set_eq|]);
    (split; [apply obj_get_set_eq|]);
    intros k Hk; apply obj_get_set_ne; congruence.
Qed.

(** ** The shape shared by the handlers *)

Lemma bind_settle_fulfilled {A B : Type} (a : A) (k : A -> Async B) :
  (x <- settle (Fulfilled a) ;; k x) = k a.
Proof. unfold bind, settle. now destruct (k a). Qed.

Lemma bind_settle_rejected {A B : Type} (e : Thrown) (k : A -> Async B) :
  (x <- settle (Rejected e) ;; k x) = throw e.
Proof. reflexivity. Qed.

(** [try { const x = await m; return f(x) } catch (error) { const message =
    ...; return g(message) }] makes the calls of [m] and no other. *)
Lemma guarded_calls (m : Async JsValue) (f : JsValue -> ToolResponse)
    (g : string -> ToolResponse) :
  calls (try_catch (x <- m ;; ret (f x))
           (fun error => message <- settle (error_message error) ;; ret (g message))) =
  calls m.
Proof.
  unfold calls, try_catch, bind, ret, settle.
  destruct m as [cs [v|e]]; simpl; [now rewrite app_nil_r|].
  destruct (error_message e); simpl; now rewrite app_nil_r.
Qed.

(** It returns what [f] or [g] makes of the way [m] settles, unless the
    thrown value has no message to give to [g]. *)
Lemma guarded_outcome (m : Async JsValue) (f : JsValue -> ToolResponse)
    (g : string -> ToolResponse) :
  outcome (try_catch (x <- m ;; ret (f x))
             (fun error => message <- settle (error_message error) ;; ret (g message))) =
  match outcome m with
  | Fulfilled v => Fulfilled (f v)
  | Rejected e =>
      match error_message e with
      | Fulfilled message => Fulfilled (g message)
      | Rejected thrown => Rejected thrown
      end
  end.
Proof.
  unfold outcome, try_catch, bind, ret, settle.
  destruct m as [cs [v|e]]; simpl; [reflexivity|].
  now destruct (error_message e).
Qed.

Lemma call_request_calls (api : FlowiseApiClient) (m : Method) (endpoint : string)
    (b : JsValue) :
  calls (call_request api m endpoint b) =
  CallRequest m endpoint b :: calls (request api m endpoint b).
Proof. apply calls_bind_emit. Qed.

Lemma call_request_outcome (api : FlowiseApiClient) (m : Method) (endpoint : string)
    (b : JsValue) :
  outcome (call_request api m endpoint b) = outcome (request api m endpoint b).
Proof. apply outcome_bind_emit. Qed.


(** ** Payload shaping *)

Lemma JSON_stringify_object (o : JsObject) :
  JSON_stringify (JObj o) = Some (object_json o).
Proof. reflexivity. Qed.

(** The payload of an update: the fields that pass the tests of the
    handler, in the order of its statements. *)
Lemma handleUpdateChatflow_calls (api : FlowiseApiClient)
    (params : UpdateChatflowParams) :
  let payload :=
    match update_name params with
    | Some name => if String.eqb name EmptyString then [] else [("name", JStr name)]
    | None => []
    end ++
    match update_flowData params with
    | Some flowData => [("flowData", JStr (object_json flowData))]
    | None => []
    end ++
    match update_chatbotConfig params with
    | Some chatbotConfig => [("chatbotConfig", JStr (object_json chatbotConfig))]
    | None => []
    end in
  calls (handleUpdateChatflow api params) =
  CallRequest PUT ("/chatflows/" +:+ update_chatflowId params) (JObj payload)
    :: calls (request api PUT ("/chatflows/" +:+ update_chatflowId params)
                (JObj payload)).
Proof.
  intros payload. subst payload. unfold handleUpdateChatflow.
  destruct params as [id [name|] [flowData|] [chatbotConfig|]];
    cbn [update_chatflowId update_name update_flowData update_chatbotConfig
         optional ToBoolean];
    try destruct (String.eqb name EmptyString); cbn [negb obj_set app];
    rewrite (guarded_calls _ successResponse
               (fun message => errorResponse
                  ("Error updating chatflow: " +:+ message)));
    apply call_request_calls.
Qed.

(** C1, as the code has it. The PUT payload of update_chatflow holds, in
    this order, name when a non-empty name was supplied, flowData when
    flowData was supplied and chatbotConfig when chatbotConfig was supplied,
    the two objects as their JSON texts, and nothing else; with none of them
    it is the empty object. *)
Theorem update_chatflow_payload (api : FlowiseApiClient)
    (params : UpdateChatflowParams) :
  let payload :=
    match update_name params with
    | Some name => if String.eqb name EmptyString then [] else [("name", JStr name)]
    | None => []
    end ++
    match update_flowData params with
    | Some flowData => [("flowData", JStr (object_json flowData))]
    | None => []
    end ++
    match update_chatbotConfig params with
    | Some chatbotConfig => [("chatbotConfig", JStr (object_json chatbotConfig))]
    | None => []
    end in
  let endpoint := "/chatflows/" +:+ update_chatflowId params in
  calls (handleUpdateChatflow api params) =
    CallRequest PUT endpoint (JObj payload)
      :: calls (request api PUT endpoint (JObj payload))
  /\ forall o, JSON_stringify (JObj o) = Some (object_json o).
Proof.
  intros payload endpoint. split; [|exact JSON_stringify_object].
  apply handleUpdateChatflow_calls.
Qed.

(** C5. The POST payload of create_chatflow holds name, flowData as the JSON
    text of the given object, type as given or CHATFLOW when omitted, and
    chatbotConfig as the JSON text of the given object or undefined when
    omitted. *)
Theorem create_chatflow_payload (api : FlowiseApiClient)
    (params : CreateChatflowParams) :
  let payload :=
    [ ("name", JStr (create_name params));
      ("flowData", JStr (object_json (create_flowData params)));
      ("type", JStr match create_type params with
                    | Some t => ChatflowType_string t
                    | None => "CHATFLOW"
                    end);
      ("chatbotConfig", match create_chatbotConfig params with
                        | Some chatbotConfig => JStr (object_json chatbotConfig)
                        | None => JUndefined
                        end) ] in
  calls (handleCreateChatflow api params) =
    CallRequest POST "/chatflows" (JObj payload)
      :: calls (request api POST "/chatflows" (JObj payload))
  /\ forall o, JSON_stringify (JObj o) = Some (object_json o).
Proof.
  intros payload. subst payload. split; [|exact JSON_stringify_object].
  unfold handleCreateChatflow.
  rewrite (guarded_calls _ successResponse
             (fun message => errorResponse ("Error creating chatflow: " +:+ message))).
  rewrite call_request_calls.
  destruct params as [name flowData [[]|] [chatbotConfig|]]; reflexivity.
Qed.

(** ** Percent-encoding *)

Lemma unescaped_not_surrogate (c1 c2 : ascii) :
  uriUnescaped c1 = true -> surrogate_lead c1 c2 = false.
Proof.
  unfold uriUnescaped, surrogate_lead. intros H.
  destruct (N.eqb_spec (N_of_ascii c1) 237) as [E|]; [|reflexivity].
  rewrite E in H. discriminate.
Qed.

(** A string without unpaired surrogate is encoded, byte by byte. *)
Lemma encodeURIComponent_well_formed (s : string) :
  has_surrogate s = false -> encodeURIComponent s = Fulfilled (percent_encode s).
Proof.
  induction s as [|c rest IH]; [reflexivity|].
  intros H. cbn [encodeURIComponent percent_encode].
  assert (has_surrogate rest = false) as Hrest.
  { destruct rest as [|c2 rest']; [reflexivity|].
    cbn [has_surrogate] in H. now apply orb_false_elim in H. }
  rewrite (IH Hrest).
  destruct (uriUnescaped c) eqn:Hc; [reflexivity|].
  destruct rest as [|c2 rest']; [reflexivity|].
  cbn [has_surrogate] in H. apply orb_false_elim in H as [-> _]. reflexivity.
Qed.

(** A string with an unpaired surrogate makes [encodeURIComponent] throw. *)
Lemma encodeURIComponent_malformed (s : string) :
  has_surrogate s = true ->
  encodeURIComponent s = Rejected (ErrorObject "URI malformed").
Proof.
  induction s as [|c rest IH]; [discriminate|].
  intros H. cbn [encodeURIComponent].
  destruct rest as [|c2 rest']; [discriminate|].
  cbn [has_surrogate] in H.
  destruct (surrogate_lead c c2) eqn:Hlead.
  - destruct (uriUnescaped c) eqn:Hc; [|reflexivity].
    now rewrite (unescaped_not_surrogate c c2 Hc) in Hlead.
  - rewrite (IH H). now destruct (uriUnescaped c).
Qed.

Lemma percent_encode_length (s : string) :
  String.length s <= String.length (percent_encode s).
Proof.
  induction s as [|c rest IH]; [reflexivity|].
  cbn [percent_encode]. rewrite length_append.
  destruct (uriUnescaped c); simpl; lia.
Qed.

Lemma percent_encode_longer (s : string) :
  has_escaped s = true -> String.length s < String.length (percent_encode s).
Proof.
  induction s as [|c rest IH]; [discriminate|].
  cbn [has_escaped percent_encode]. rewrite length_append.
  pose proof (percent_encode_length rest) as Hlen.
  destruct (uriUnescaped c); simpl; intros H; [specialize (IH H)|]; lia.
Qed.

(** Where it returns, [encodeURIComponent] returns the percent-encoding. *)
Lemma encodeURIComponent_fulfilled (s encoded : string) :
  encodeURIComponent s = Fulfilled encoded -> encoded = percent_encode s.
Proof.
  destruct (has_surrogate s) eqn:H.
  - rewrite (encodeURIComponent_malformed s H). discriminate.
  - rewrite (encodeURIComponent_well_formed s H). congruence.
Qed.

Lemma percent_encode_plain (s : string) :
  has_escaped s = false -> percent_encode s = s.
Proof.
  induction s as [|c rest IH]; [reflexivity|].
  cbn [has_escaped percent_encode]. intros H.
  apply orb_false_elim in H as [Hc Hrest].
  apply negb_false_iff in Hc. rewrite Hc, (IH Hrest). reflexivity.
Qed.

(** C8, as the code has it. For a category or node name without unpaired
    surrogate, get_nodes_by_category requests /nodes/category/ followed by
    the percent-encoding of the category and get_node requests /nodes/
    followed by the percent-encoding of the name; for a string with an
    unpaired surrogate encodeURIComponent throws, no request is made and the
    handler returns its error response.  Tools & Utilities is encoded as
    Tools%20%26%20Utilities and custom/node as custom%2Fnode. *)
Theorem node_endpoints_encoded (api : FlowiseApiClient) (name : string) :
  (if has_surrogate name
   then
     handleGetNodesByCategory api name =
       ([], Fulfilled (errorResponse "Error getting nodes by category: URI malformed"))
     /\ handleGetNode api name =
          ([], Fulfilled (errorResponse "Error getting node: URI malformed"))
   else
     encodeURIComponent name = Fulfilled (percent_encode name)
     /\ calls (handleGetNodesByCategory api name) =
          CallRequest GET ("/nodes/category/" +:+ percent_encode name) JUndefined
            :: calls (request api GET ("/nodes/category/" +:+ percent_encode name)
                        JUndefined)
     /\ calls (handleGetNode api name) =
          CallRequest GET ("/nodes/" +:+ percent_encode name) JUndefined
            :: calls (request api GET ("/nodes/" +:+ percent_encode name) JUndefined))
  /\ encodeURIComponent "Tools & Utilities" = Fulfilled "Tools%20%26%20Utilities"
  /\ encodeURIComponent "custom/node" = Fulfilled "custom%2Fnode".
Proof.
  split; [|split; reflexivity].
  destruct (has_surrogate name) eqn:H.
  - unfold handleGetNodesByCategory, handleGetNode.
    rewrite (encodeURIComponent_malformed name H). split; reflexivity.
  - split; [exact (encodeURIComponent_well_formed name H)|].
    unfold handleGetNodesByCategory, handleGetNode.
    rewrite (encodeURIComponent_well_formed name H), !bind_settle_fulfilled.
    split.
    + rewrite (guarded_calls _ successResponse
                 (fun message => errorResponse
                    ("Error getting nodes by category: " +:+ message))).
      apply call_request_calls.
    + rewrite (guarded_calls _ successResponse
                 (fun message => errorResponse
                    ("Error getting node: " +:+ message))).
      apply call_request_calls.
Qed.

Lemma reserved_is_escaped (c : ascii) :
  uriReserved c = true -> uriUnescaped c = false.
Proof.
  unfold uriReserved, uriUnescaped. cbv zeta. intros H.
  repeat (apply orb_prop in H as [H|H]);
    apply N.eqb_eq in H; rewrite H; reflexivity.
Qed.

Lemma has_reserved_escaped (s : string) :
  has_reserved s = true -> has_escaped s = true.
Proof.
  induction s as [|c rest IH]; [discriminate|].
  cbn [has_reserved has_escaped]. intros H.
  apply orb_prop in H as [H|H].
  - now rewrite (reserved_is_escaped c H).
  - rewrite (IH H). apply orb_true_r.
Qed.

(** C9. get_chatflow, update_chatflow and delete_chatflow request /chatflows/
    followed by the chatflowId as it is, without percent-encoding.  For every
    chatflowId that holds a reserved character the requested path differs
    from /chatflows/ followed by the encoded id; the two paths are the same
    only when encodeURIComponent escapes no character of the id.  The id a/b
    requests /chatflows/a/b, and its encoding is a%2Fb. *)
Theorem chatflow_endpoints_raw (api : FlowiseApiClient) (chatflowId : string)
    (params : UpdateChatflowParams) :
  calls (handleGetChatflow api chatflowId) =
    CallRequest GET ("/chatflows/" +:+ chatflowId) JUndefined
      :: calls (request api GET ("/chatflows/" +:+ chatflowId) JUndefined)
  /\ (exists payload,
        calls (handleUpdateChatflow api params) =
          CallRequest PUT ("/chatflows/" +:+ update_chatflowId params) payload
            :: calls (request api PUT ("/chatflows/" +:+ update_chatflowId params)
                        payload))
  /\ calls (handleDeleteChatflow api chatflowId) =
       CallRequest DELETE ("/chatflows/" +:+ chatflowId) JUndefined
         :: calls (request api DELETE ("/chatflows/" +:+ chatflowId) JUndefined)
  /\ (has_reserved chatflowId = true ->
      forall encoded, encodeURIComponent chatflowId = Fulfilled encoded ->
      "/chatflows/" +:+ chatflowId <> "/chatflows/" +:+ encoded)
  /\ ("/chatflows/" +:+ chatflowId = "/chatflows/" +:+ percent_encode chatflowId
       <-> has_escaped chatflowId = false)
  /\ has_reserved "a/b" = true
  /\ encodeURIComponent "a/b" = Fulfilled "a%2Fb"
  /\ calls (handleGetChatflow api "a/b") =
       CallRequest GET "/chatflows/a/b" JUndefined
         :: calls (request api GET "/chatflows/a/b" JUndefined).
Proof.
  assert (forall id, calls (handleGetChatflow api id) =
            CallRequest GET ("/chatflows/" +:+ id) JUndefined
              :: calls (request api GET ("/chatflows/" +:+ id) JUndefined)) as Hget.
  { intros id. unfold handleGetChatflow.
    rewrite (guarded_calls _ successResponse
               (fun message => errorResponse
                  ("Error getting chatflow: " +:+ message))).
    apply call_request_calls. }
  split; [apply Hget|].
  split.
  { eexists. apply handleUpdateChatflow_calls. }
  split.
  { unfold handleDeleteChatflow.
    rewrite (guarded_calls _
               (fun result => successResponse
                  (JObj [("success", JBool true); ("deleted", JStr chatflowId);
                         ("result", result)]))
               (fun message => errorResponse
                  ("Error deleting chatflow: " +:+ message))).
    apply call_request_calls. }
  assert ("/chatflows/" +:+ chatflowId = "/chatflows/" +:+ percent_encode chatflowId
          -> has_escaped chatflowId = false) as Hsame.
  { intros Heq. apply (inj (String.app "/chatflows/")) in Heq.
    destruct (has_escaped chatflowId) eqn:H; [|reflexivity].
    pose proof (percent_encode_longer chatflowId H) as Hlt.
    rewrite <- Heq in Hlt. lia. }
  split.
  { intros Hres encoded Henc Heq.
    rewrite (encodeURIComponent_fulfilled chatflowId encoded Henc) in Heq.
    rewrite (has_reserved_escaped chatflowId Hres) in Hsame.
    specialize (Hsame Heq). discriminate. }
  split.
  { split; [exact Hsame|].
    intros H. now rewrite (percent_encode_plain chatflowId H). }
  split; [reflexivity|]. split; [reflexivity|]. apply (Hget "a/b").
Qed.

(** ** The response of delete_chatflow *)

Lemma quote_char_plain (c : ascii) :
  ((N_of_ascii c <? 32) = false -> (N_of_ascii c =? 34) = false ->
   (N_of_ascii c =? 92) = false -> quote_char c = str c)%N.
Proof.
  intros H32 H34 H92. unfold quote_char. cbv zeta. rewrite H32, H34, H92.
  destruct (N.eqb_spec (N_of_ascii c) 8) as [E|_];
    [rewrite E in H32; discriminate|].
  destruct (N.eqb_spec (N_of_ascii c) 9) as [E|_];
    [rewrite E in H32; discriminate|].
  destruct (N.eqb_spec (N_of_ascii c) 10) as [E|_];
    [rewrite E in H32; discriminate|].
  destruct (N.eqb_spec (N_of_ascii c) 12) as [E|_];
    [rewrite E in H32; discriminate|].
  destruct (N.eqb_spec (N_of_ascii c) 13) as [E|_];
    [rewrite E in H32; discriminate|].
  reflexivity.
Qed.

Lemma quote_body_plain (s : string) : json_plain s = true -> quote_body s = s.
Proof.
  induction s as [|c rest IH]; [reflexivity|].
  cbn [json_plain]. cbv zeta. intros H.
  apply andb_prop in H as [H Hrest]. apply andb_prop in H as [Hc Hlead].
  apply andb_prop in Hc as [Hc H92]. apply andb_prop in Hc as [H32 H34].
  apply negb_true_iff in H32, H34, H92, Hlead.
  cbn [quote_body]. rewrite (IH Hrest), (quote_char_plain c H32 H34 H92).
  destruct rest as [|c2 [|c3 rest']]; try reflexivity.
  now rewrite Hlead.
Qed.

Lemma QuoteJSONString_plain (s : string) :
  json_plain s = true -> QuoteJSONString s = quoted s.
Proof. intros H. unfold QuoteJSONString, quoted. now rewrite (quote_body_plain s H). Qed.

(** The text of the response of a successful delete. *)
Lemma delete_text (chatflowId : string) (result : JsValue) :
  JSON_stringify_pretty
    (JObj [("success", JBool true); ("deleted", JStr chatflowId); ("result", result)]) =
  Some ("{" +:+ str LF +:+ "  "
          +:+ (quoted "success" +:+ ": true")
          +:+ ("," +:+ str LF +:+ "  ")
          +:+ (quoted "deleted" +:+ ": " +:+ QuoteJSONString chatflowId)
          +:+ result_tail result).
Proof.
  unfold JSON_stringify_pretty, result_tail.
  cbn [SerializeJSONProperty flat_map snd fst app].
  change (EmptyString +:+ "  ") with "  ".
  destruct (SerializeJSONProperty "  " "  " result) as [t|]; f_equal;
    unfold wrap, QuoteJSONString, quoted, str; simpl;
    repeat (rewrite !append_assoc; simpl); reflexivity.
Qed.

(** C7, as the code has it. When the DELETE request of delete_chatflow
    succeeds with raw response [result], the tool response is the success
    wrapping of the object success: true, deleted: chatflowId, result; its
    text contains the success property as true and the deleted property with
    the JSON string of the chatflowId, which is the chatflowId between double
    quotes when JSON escapes none of its characters. *)
Theorem delete_chatflow_response (api : FlowiseApiClient) (chatflowId : string)
    (result : JsValue) :
  outcome (request api DELETE ("/chatflows/" +:+ chatflowId) JUndefined)
    = Fulfilled result ->
  let data :=
    JObj [("success", JBool true); ("deleted", JStr chatflowId); ("result", result)] in
  outcome (handleDeleteChatflow api chatflowId) = Fulfilled (successResponse data)
  /\ exists t,
       content (successResponse data) = [ {| type := "text"; text := Some t |} ]
       /\ includes t (quoted "success" +:+ ": true") = true
       /\ includes t (quoted "deleted" +:+ ": " +:+ QuoteJSONString chatflowId) = true
       /\ (json_plain chatflowId = true ->
           includes t (quoted "deleted" +:+ ": " +:+ quoted chatflowId) = true).
Proof.
  intros Hresult data. split.
  - unfold handleDeleteChatflow.
    rewrite (guarded_outcome _
               (fun result => successResponse
                  (JObj [("success", JBool true); ("deleted", JStr chatflowId);
                         ("result", result)]))
               (fun message => errorResponse
                  ("Error deleting chatflow: " +:+ message))).
    now rewrite call_request_outcome, Hresult.
  - eexists. unfold successResponse, data. rewrite delete_text.
    split; [reflexivity|].
    split; [apply (includes_part ("{" +:+ str LF +:+ "  "))|].
    assert (includes
              ("{" +:+ str LF +:+ "  " +:+ (quoted "success" +:+ ": true")
                 +:+ ("," +:+ str LF +:+ "  ")
                 +:+ (quoted "deleted" +:+ ": " +:+ QuoteJSONString chatflowId)
                 +:+ result_tail result)
              (quoted "deleted" +:+ ": " +:+ QuoteJSONString chatflowId) = true) as Hdel.
    { rewrite <- (append_assoc (quoted "success" +:+ ": true")).
      rewrite <- (append_assoc ("  ")), <- (append_assoc (str LF)), <- (append_assoc "{").
      apply includes_part. }
    split; [exact Hdel|].
    intros Hplain. now rewrite <- (QuoteJSONString_plain chatflowId Hplain).
Qed.

(** ** Every dispatcher *)







(** ** index.ts with the handlers inline *)

(** [flowiseApi] is [request] of the client built from the default
    configuration. *)
Lemma flowiseApi_is_request (env : gmap string string) (fetch : Fetch) (m : Method)
    (endpoint : string) (b : JsValue) :
  flowiseApi env fetch m endpoint b =
  request (createFlowiseApiClient fetch (getDefaultConfig env)) m endpoint b.
Proof. reflexivity. Qed.

(** The eight callbacks that go through [flowiseApi] run as the handlers of
    handlers.ts do on that client: same calls, same response. *)
Lemma dispatch_inline_agrees (env : gmap string string) (fetch : Fetch)
    (sdk : FlowiseSdkClient) (call : ToolCall) :
  match call with
  | create_prediction _ | create_prediction_with_history _
  | create_prediction_with_files _ | create_prediction_with_lead _ => True
  | _ =>
      dispatch_inline env fetch sdk call =
      dispatch sdk (createFlowiseApiClient fetch (getDefaultConfig env)) call
  end.
Proof. destruct call; try exact I; reflexivity. Qed.

Lemma inline_prediction_calls (client : FlowiseSdkClient) (sent : JsObject)
    (prefix : string) :
  calls
    (try_catch
       (response <- call_createPrediction client sent ;; ret (text_result response))
       (fun error =>
          errorMessage <- settle (error_message error) ;;
          ret (text_error (prefix +:+ errorMessage)))) =
  CallCreatePrediction sent :: calls (createPrediction client sent).
Proof.
  unfold call_createPrediction, calls, try_catch, bind, emit, ret, settle.
  destruct (createPrediction client sent) as [cs [v|e]]; simpl;
    [|destruct (error_message e); simpl]; now rewrite ?app_nil_r.
Qed.

(** The four inline prediction callbacks send [streaming: false] too. *)
Lemma inline_prediction_streaming_false :
  sends_streaming_false tool_create_prediction
  /\ sends_streaming_false tool_create_prediction_with_history
  /\ sends_streaming_false tool_create_prediction_with_files
  /\ sends_streaming_false tool_create_prediction_with_lead.
Proof.
  repeat split; intros client params; eexists;
    (split; [apply inline_prediction_calls | split; reflexivity]).
Qed.

End Properties.

(** * Concrete runs *)

(** C1 as stated fails: update_chatflow called with the empty string as name
    sends the empty payload, without the name that was supplied. *)
Lemma update_chatflow_drops_empty_name :
  calls
    (handleUpdateChatflow (mockApiClient (Fulfilled (JObj [])))
       {| update_chatflowId := "123";
          update_name := Some EmptyString;
          update_flowData := None;
          update_chatbotConfig := None |}) =
  [CallRequest PUT "/chatflows/123" (JObj [])].
Proof. reflexivity. Qed.

(** C2 as stated fails: a request whose body argument is false, or the empty
    string, is sent without a body, although these values have a JSON
    serialisation. *)
Lemma request_drops_falsy_body :
  JSON_stringify (JBool false) = Some "false"
  /\ calls (request (createFlowiseApiClient fetch_ok localhost) POST "/chatflows"
              (JBool false)) =
       [CallFetch "http://localhost:3000/api/v1/chatflows"
          {| method := POST;
             headers := {[ "Content-Type" := "application/json" ]};
             body := None |}]
  /\ JSON_stringify (JStr EmptyString) = Some (quoted EmptyString)
  /\ calls (request (createFlowiseApiClient fetch_ok localhost) POST "/chatflows"
              (JStr EmptyString)) =
       [CallFetch "http://localhost:3000/api/v1/chatflows"
          {| method := POST;
             headers := {[ "Content-Type" := "application/json" ]};
             body := None |}].
Proof. repeat split. Qed.

(** C7 as stated fails: for the chatflowId made of one double quote, the text
    of the response does not contain the deleted property followed by that id
    between double quotes, since JSON.stringify escapes the quote. *)
Lemma delete_chatflow_escapes_id :
  exists t,
    outcome (handleDeleteChatflow (mockApiClient (Fulfilled (JObj []))) (str DQUOTE)) =
      Fulfilled {| content := [ {| type := "text"; text := Some t |} ];
                   isError := None |}
    /\ includes t (quoted "deleted" +:+ ": " +:+ quoted (str DQUOTE)) = false
    /\ includes t (quoted "deleted" +:+ ": " +:+ QuoteJSONString (str DQUOTE)) = true.
Proof. eexists. repeat split. Qed.

(** C8 as stated fails: for a category that is an unpaired surrogate,
    get_nodes_by_category makes no request and returns an error response. *)
Lemma get_nodes_by_category_unpaired_surrogate :
  handleGetNodesByCategory (mockApiClient (Fulfilled (JArr []))) lone_surrogate =
  ([], Fulfilled
         {| content :=
              [ {| type := "text";
                   text := Some "Error getting nodes by category: URI malformed" |} ];
            isError := Some true |}).
Proof. reflexivity. Qed.



(** A run of C7: the DELETE request of chatflow 123 succeeds. *)
Lemma delete_chatflow_response_witness :
  outcome (handleDeleteChatflow (mockApiClient (Fulfilled (JObj []))) "123") =
    Fulfilled
      (successResponse
         (JObj [("success", JBool true); ("deleted", JStr "123"); ("result", JObj [])]))
  /\ exists t,
       content
         (successResponse
            (JObj [("success", JBool true); ("deleted", JStr "123");
                   ("result", JObj [])])) = [ {| type := "text"; text := Some t |} ]
       /\ includes t (quoted "success" +:+ ": true") = true
       /\ includes t (quoted "deleted" +:+ ": " +:+ quoted "123") = true.
Proof.
  destruct (delete_chatflow_response (mockApiClient (Fulfilled (JObj []))) "123"
              (JObj []) eq_refl) as [Ho (t & Ht & Hs & _ & Hd)].
  split; [exact Ho|]. exists t. repeat split; [exact Ht | exact Hs | exact (Hd eq_refl)].
Defined.


(** A run of C9: the id a/b holds a reserved character. *)
Lemma chatflow_endpoints_raw_witness :
  "/chatflows/" +:+ "a/b" <> "/chatflows/" +:+ "a%2Fb".
Proof.
  exact (proj1 (proj2 (proj2 (proj2
           (chatflow_endpoints_raw (mockApiClient (Fulfilled JNull)) "a/b"
              {| update_chatflowId := "a/b"; update_name := None;
                 update_flowData := None; update_chatbotConfig := None |}))))
           eq_refl "a%2Fb" eq_refl).
Defined.

(** * The test suites, replayed *)

(** handlers.test.ts: the arguments each handler hands to its client. *)

Example test_create_prediction_success :
  handleCreatePrediction
    (mockSdkClient (Fulfilled (JObj [("text", JStr "Hello, world!")])))
    [("chatflowId", JStr "flow-123"); ("question", JStr "Hi there")] =
  ([CallCreatePrediction
      [("chatflowId", JStr "flow-123"); ("question", JStr "Hi there");
       ("streaming", JBool false)]],
   Fulfilled
     (successResponse (JObj [("text", JStr "Hello, world!")]))).
Proof. reflexivity. Qed.

Example test_create_prediction_failure :
  outcome
    (handleCreatePrediction (mockSdkClient (Rejected (ErrorObject "Connection failed")))
       [("chatflowId", JStr "flow-123"); ("question", JStr "Hi")]) =
  Fulfilled (errorResponse "Error running chatflow: Connection failed").
Proof. reflexivity. Qed.

Example test_create_prediction_with_lead :
  calls
    (handleCreatePredictionWithLead (mockSdkClient (Fulfilled (JObj [])))
       [("chatflowId", JStr "flow-123"); ("question", JStr "I want to learn more");
        ("leadEmail", JStr "user@example.com")]) =
  [CallCreatePrediction
     [("chatflowId", JStr "flow-123"); ("question", JStr "I want to learn more");
      ("leadEmail", JStr "user@example.com"); ("streaming", JBool false)]].
Proof. reflexivity. Qed.

Example test_list_chatflows :
  calls (handleListChatflows (mockApiClient (Fulfilled (JArr [])))) =
  [CallRequest GET "/chatflows" JUndefined].
Proof. reflexivity. Qed.

Example test_get_chatflow :
  calls (handleGetChatflow (mockApiClient (Fulfilled (JObj []))) "123") =
  [CallRequest GET "/chatflows/123" JUndefined].
Proof. reflexivity. Qed.

Example test_create_chatflow_default_type :
  calls
    (handleCreateChatflow (mockApiClient (Fulfilled (JObj [])))
       {| create_name := "New Flow";
          create_flowData := [("nodes", JArr []); ("edges", JArr [])];
          create_type := None;
          create_chatbotConfig := None |}) =
  [CallRequest POST "/chatflows"
     (JObj
        [ ("name", JStr "New Flow");
          ("flowData",
            string_or_undefined
              (JSON_stringify (JObj [("nodes", JArr []); ("edges", JArr [])])));
          ("type", JStr "CHATFLOW");
          ("chatbotConfig", JUndefined) ])].
Proof. reflexivity. Qed.

Example test_create_agentflow_with_chatbotConfig :
  calls
    (handleCreateChatflow (mockApiClient (Fulfilled (JObj [])))
       {| create_name := "Agent Flow";
          create_flowData :=
            [("nodes", JArr [JObj [("id", JStr "1")]]); ("edges", JArr [])];
          create_type := Some AGENTFLOW;
          create_chatbotConfig := Some [("theme", JStr "dark")] |}) =
  [CallRequest POST "/chatflows"
     (JObj
        [ ("name", JStr "Agent Flow");
          ("flowData",
            string_or_undefined
              (JSON_stringify
                 (JObj [("nodes", JArr [JObj [("id", JStr "1")]]); ("edges", JArr [])])));
          ("type", JStr "AGENTFLOW");
          ("chatbotConfig",
            string_or_undefined (JSON_stringify (JObj [("theme", JStr "dark")]))) ])].
Proof. reflexivity. Qed.

Example test_update_name_only :
  calls
    (handleUpdateChatflow (mockApiClient (Fulfilled (JObj [])))
       {| update_chatflowId := "123";
          update_name := Some "Updated Name";
          update_flowData := None;
          update_chatbotConfig := None |}) =
  [CallRequest PUT "/chatflows/123" (JObj [("name", JStr "Updated Name")])].
Proof. reflexivity. Qed.

Example test_update_multiple_fields :
  calls
    (handleUpdateChatflow (mockApiClient (Fulfilled (JObj [])))
       {| update_chatflowId := "123";
          update_name := Some "New Name";
          update_flowData := None;
          update_chatbotConfig := Some [("key", JStr "value")] |}) =
  [CallRequest PUT "/chatflows/123"
     (JObj
        [ ("name", JStr "New Name");
          ("chatbotConfig",
            string_or_undefined (JSON_stringify (JObj [("key", JStr "value")]))) ])].
Proof. reflexivity. Qed.

Example test_category_is_encoded :
  calls
    (handleGetNodesByCategory (mockApiClient (Fulfilled (JArr []))) "Tools & Utilities") =
  [CallRequest GET "/nodes/category/Tools%20%26%20Utilities" JUndefined].
Proof. reflexivity. Qed.

Example test_node_name_is_encoded :
  calls (handleGetNode (mockApiClient (Fulfilled (JObj []))) "custom/node") =
  [CallRequest GET "/nodes/custom%2Fnode" JUndefined].
Proof. reflexivity. Qed.

(** flowise-api.test.ts: what reaches [fetch]. *)

Example test_default_config :
  getDefaultConfig ∅ = {| baseUrl := "http://localhost:3000"; apiKey := EmptyString |}.
Proof. reflexivity. Qed.

Example test_config_from_env :
  getDefaultConfig
    (<["FLOWISE_API_KEY" := "test-api-key"]>
       {[ "FLOWISE_BASE_URL" := "http://custom-host:8080" ]}) =
  {| baseUrl := "http://custom-host:8080"; apiKey := "test-api-key" |}.
Proof. reflexivity. Qed.

Example test_get_without_body :
  calls
    (request
       (createFlowiseApiClient fetch_ok
          {| baseUrl := "http://localhost:3000"; apiKey := "test-key" |})
       GET "/chatflows/123" JUndefined) =
  [CallFetch "http://localhost:3000/api/v1/chatflows/123"
     {| method := GET;
        headers :=
          <["Authorization" := "Bearer test-key"]>
            {[ "Content-Type" := "application/json" ]};
        body := None |}].
Proof. reflexivity. Qed.

Example test_post_with_body :
  calls
    (request
       (createFlowiseApiClient fetch_ok
          {| baseUrl := "http://localhost:3000"; apiKey := "test-key" |})
       POST "/chatflows" (JObj [("name", JStr "New Flow"); ("flowData", JStr "{}")])) =
  [CallFetch "http://localhost:3000/api/v1/chatflows"
     {| method := POST;
        headers :=
          <["Authorization" := "Bearer test-key"]>
            {[ "Content-Type" := "application/json" ]};
        body :=
          JSON_stringify (JObj [("name", JStr "New Flow"); ("flowData", JStr "{}")]) |}].
Proof. reflexivity. Qed.

Example test_error_on_non_ok :
  outcome
    (request
       (createFlowiseApiClient
          (fun _ _ =>
             Fulfilled {| ok := false; status := 404;
                          response_text := Fulfilled "Chatflow not found";
                          response_json := Fulfilled JNull |})
          {| baseUrl := "http://localhost:3000"; apiKey := "test-key" |})
       GET "/chatflows/999" JUndefined) =
  Rejected (ErrorObject "Flowise API error (404): Chatflow not found").
Proof. reflexivity. Qed.

(** The end-to-end scenario of list_chatflows: the text is the JSON of the
    array, one property per line, indented by two spaces per level. *)
Example test_list_chatflows_text :
  outcome
    (handleListChatflows
       (mockApiClient
          (Fulfilled (JArr [JObj [("id", JStr "1"); ("name", JStr "Flow 1")]])))) =
  Fulfilled
    {| content :=
         [ {| type := "text";
              text :=
                Some ("[" +:+ str LF
                        +:+ "  {" +:+ str LF
                        +:+ "    " +:+ quoted "id" +:+ ": " +:+ quoted "1" +:+ ","
                        +:+ str LF
                        +:+ "    " +:+ quoted "name" +:+ ": " +:+ quoted "Flow 1"
                        +:+ str LF
                        +:+ "  }" +:+ str LF
                        +:+ "]") |} ];
       isError := None |}.
Proof. reflexivity. Qed.

(** [String] on values that are no Error, as a catch block may receive
    them. *)

Example String_of_an_array :
  ToString (JArr [JStr "a"; JNull; JArr [JStr "b"; JBool true]; JUndefined; JObj []]) =
  Some "a,,b,true,,[object Object]".
Proof. reflexivity. Qed.

Example String_without_method :
  ToString no_string_form = None /\ ToString (JArr [JStr "a"; no_string_form]) = None.
Proof. split; reflexivity. Qed.

Example test_create_prediction_rejected_with_a_string :
  outcome
    (handleCreatePrediction (mockSdkClient (Rejected (ThrownValue (JStr "timeout"))))
       [("chatflowId", JStr "flow-123"); ("question", JStr "Hi")]) =
  Fulfilled (errorResponse "Error running chatflow: timeout").
Proof. reflexivity. Qed.

(** * Further properties *)

Section FurtherProperties.
Context {Num : JsNumber}.

(** ** The transport client, from the call to the result *)

(** A request is one call of [fetch] and settles as the answer dictates. *)
Lemma request_run (fetch : Fetch) (config : FlowiseApiConfig) (m : Method)
    (endpoint : string) (b : JsValue) :
  let url := baseUrl config +:+ "/api/v1" +:+ endpoint in
  let init :=
    {| method := m;
       headers :=
         if ToBoolean (JStr (apiKey config))
         then <["Authorization" := "Bearer " +:+ apiKey config]>
                {[ "Content-Type" := "application/json" ]}
         else {[ "Content-Type" := "application/json" ]};
       body := if ToBoolean b then JSON_stringify b else None |} in
  request (createFlowiseApiClient fetch config) m endpoint b =
  ([CallFetch url init],
   match fetch url init with
   | Rejected e => Rejected e
   | Fulfilled response =>
       if ok response then response_json response
       else
         match response_text response with
         | Fulfilled errorText =>
             Rejected (ErrorObject ("Flowise API error (" +:+ pretty (status response)
                                      +:+ "): " +:+ errorText))
         | Rejected e => Rejected e
         end
   end).
Proof.
  intros url init. subst url init.
  unfold createFlowiseApiClient, request, call_fetch, bind, emit, settle, throw.
  destruct (fetch _ _) as [response|e]; [|reflexivity].
  destruct (ok response); simpl; [now destruct (response_json response)|].
  destruct (response_text response); reflexivity.
Qed.

(** How a request settles, from the answer to the fetch it made. *)
Lemma request_settles (fetch : Fetch) (config : FlowiseApiConfig) (m : Method)
    (endpoint : string) (b : JsValue) (url : string) (init : RequestInit) :
  calls (request (createFlowiseApiClient fetch config) m endpoint b) =
    [CallFetch url init] ->
  outcome (request (createFlowiseApiClient fetch config) m endpoint b) =
  match fetch url init with
  | Rejected e => Rejected e
  | Fulfilled response =>
      if ok response then response_json response
      else
        match response_text response with
        | Fulfilled errorText =>
            Rejected (ErrorObject ("Flowise API error (" +:+ pretty (status response)
                                     +:+ "): " +:+ errorText))
        | Rejected e => Rejected e
        end
  end.
Proof.
  rewrite request_run. unfold calls, outcome. cbn [fst snd].
  intros Hcall. injection Hcall as <- <-. reflexivity.
Qed.

(** X1. Whatever the network answers, a request of the transport client
    calls fetch exactly once, with the method it was given, at the base URL
    followed by /api/v1 and the endpoint, both as they are, and with no
    header besides Content-Type and Authorization. *)
Theorem request_one_fetch (fetch : Fetch) (config : FlowiseApiConfig) (m : Method)
    (endpoint : string) (b : JsValue) :
  exists init,
    calls (request (createFlowiseApiClient fetch config) m endpoint b) =
      [CallFetch (baseUrl config +:+ "/api/v1" +:+ endpoint) init]
    /\ method init = m
    /\ forall name,
         name <> "Content-Type" -> name <> "Authorization" ->
         headers init !! name = None.
Proof.
  eexists. rewrite request_run. split; [reflexivity|]. split; [reflexivity|].
  intros name Hct Hauth. cbn [headers].
  destruct (ToBoolean (JStr (apiKey config))).
  - rewrite lookup_insert_ne by congruence. now apply lookup_singleton_ne.
  - now apply lookup_singleton_ne.
Qed.

(** X2. When the response of the one fetch is ok, the request settles as
    response.json() does: the parsed body is returned as it is, and neither
    the status nor the text of the response is looked at. *)
Theorem request_returns_json (fetch : Fetch) (config : FlowiseApiConfig)
    (m : Method) (endpoint : string) (b : JsValue) (url : string)
    (init : RequestInit) (response : Response) :
  calls (request (createFlowiseApiClient fetch config) m endpoint b) =
    [CallFetch url init] ->
  fetch url init = Fulfilled response ->
  ok response = true ->
  outcome (request (createFlowiseApiClient fetch config) m endpoint b) =
    response_json response.
Proof.
  intros Hcall Hfetch Hok.
  now rewrite (request_settles _ _ _ _ _ _ _ Hcall), Hfetch, Hok.
Qed.

(** X3. When the response of the one fetch is not ok and its text is [t],
    the request is rejected with an Error whose message is Flowise API error,
    the status in decimal between parentheses, a colon and [t]; the JSON of
    the response is not read. *)
Theorem request_rejects_not_ok (fetch : Fetch) (config : FlowiseApiConfig)
    (m : Method) (endpoint : string) (b : JsValue) (url : string)
    (init : RequestInit) (response : Response) (t : string) :
  calls (request (createFlowiseApiClient fetch config) m endpoint b) =
    [CallFetch url init] ->
  fetch url init = Fulfilled response ->
  ok response = false ->
  response_text response = Fulfilled t ->
  outcome (request (createFlowiseApiClient fetch config) m endpoint b) =
    Rejected (ErrorObject ("Flowise API error (" +:+ pretty (status response)
                             +:+ "): " +:+ t)).
Proof.
  intros Hcall Hfetch Hok Htext.
  now rewrite (request_settles _ _ _ _ _ _ _ Hcall), Hfetch, Hok, Htext.
Qed.

(** X4. The transport client wraps no failure of its own environment: when
    fetch itself is rejected, or when the response is not ok and reading its
    text is rejected, the request is rejected with that same error. *)
Theorem request_propagates_failure (fetch : Fetch) (config : FlowiseApiConfig)
    (m : Method) (endpoint : string) (b : JsValue) (url : string)
    (init : RequestInit) (e : Thrown) :
  calls (request (createFlowiseApiClient fetch config) m endpoint b) =
    [CallFetch url init] ->
  (fetch url init = Rejected e \/
   exists response,
     fetch url init = Fulfilled response /\ ok response = false
     /\ response_text response = Rejected e) ->
  outcome (request (createFlowiseApiClient fetch config) m endpoint b) = Rejected e.
Proof.
  intros Hcall H. rewrite (request_settles _ _ _ _ _ _ _ Hcall).
  destruct H as [Hfetch|(response & Hfetch & Hok & Htext)].
  - now rewrite Hfetch.
  - now rewrite Hfetch, Hok, Htext.
Qed.

(** ** The default configuration *)

Lemma env_or_value (env : gmap string string) (name fallback : string) :
  env_or env name fallback =
  match env !! name with
  | Some value => if String.eqb value EmptyString then fallback else value
  | None => fallback
  end.
Proof.
  unfold env_or, js_or. destruct (env !! name) as [value|]; cbn; [|reflexivity].
  now destruct (String.eqb value EmptyString).
Qed.

(** X5. The default configuration never has an empty base URL: an unset or
    empty FLOWISE_BASE_URL gives http://localhost:3000 and any other value is
    kept as it is; the API key is the value of FLOWISE_API_KEY, and the empty
    string when it is unset. *)
Theorem getDefaultConfig_values (env : gmap string string) :
  baseUrl (getDefaultConfig env) <> EmptyString
  /\ baseUrl (getDefaultConfig env) =
       match env !! "FLOWISE_BASE_URL" with
       | Some value =>
           if String.eqb value EmptyString then "http://localhost:3000" else value
       | None => "http://localhost:3000"
       end
  /\ apiKey (getDefaultConfig env) = default EmptyString (env !! "FLOWISE_API_KEY").
Proof.
  unfold getDefaultConfig. cbn [baseUrl apiKey]. rewrite !env_or_value.
  split; [|split; [reflexivity|]].
  - destruct (env !! "FLOWISE_BASE_URL") as [value|]; [|discriminate].
    destruct (String.eqb_spec value EmptyString); [discriminate | assumption].
  - destruct (env !! "FLOWISE_API_KEY") as [value|]; [|reflexivity].
    cbn. destruct (String.eqb_spec value EmptyString); congruence.
Qed.

(** X6. A server configured from the environment sends the Authorization
    header exactly when FLOWISE_API_KEY is set to a non-empty value, and then
    as Bearer followed by that value. *)
Theorem default_config_authorization (env : gmap string string) (fetch : Fetch)
    (m : Method) (endpoint : string) (b : JsValue) :
  exists init,
    calls (request (createFlowiseApiClient fetch (getDefaultConfig env)) m endpoint b) =
      [CallFetch (baseUrl (getDefaultConfig env) +:+ "/api/v1" +:+ endpoint) init]
    /\ headers init !! "Authorization" =
         match env !! "FLOWISE_API_KEY" with
         | Some key =>
             if String.eqb key EmptyString then None else Some ("Bearer " +:+ key)
         | None => None
         end.
Proof.
  eexists. rewrite request_run. split; [reflexivity|].
  cbn [headers ToBoolean]. unfold getDefaultConfig. cbn [apiKey].
  rewrite env_or_value.
  destruct (env !! "FLOWISE_API_KEY") as [key|]; cbn.
  - destruct (String.eqb key EmptyString) eqn:Hkey; cbn; rewrite ?Hkey; cbn.
    + now apply lookup_singleton_ne.
    + apply lookup_insert_eq.
  - now apply lookup_singleton_ne.
Qed.

(** ** From the tool call to the HTTP exchange *)

Lemma guarded_request_run (api : FlowiseApiClient) (call : ToolCall) (m : Method)
    (endpoint : string) (b : JsValue) :
  let h :=
    try_catch
      (x <- call_request api m endpoint b ;;
       ret (successResponse (result_data call x)))
      (fun error =>
         message <- settle (error_message error) ;;
         ret (errorResponse (error_prefix call +:+ message))) in
  calls h = CallRequest m endpoint b :: calls (request api m endpoint b)
  /\ outcome h = response_for call (outcome (request api m endpoint b)).
Proof.
  intros h. subst h. split.
  - rewrite (guarded_calls _ (fun x => successResponse (result_data call x))
               (fun message => errorResponse (error_prefix call +:+ message))).
    apply call_request_calls.
  - rewrite (guarded_outcome _ (fun x => successResponse (result_data call x))
               (fun message => errorResponse (error_prefix call +:+ message))).
    rewrite call_request_outcome. reflexivity.
Qed.

(** The request of a tool is the call its handler makes, and the handler
    answers for the way that request settles. *)
Lemma dispatch_request (sdk : FlowiseSdkClient) (api : FlowiseApiClient)
    (call : ToolCall) (m : Method) (endpoint : string) (b : JsValue) :
  tool_request call = Some (m, endpoint, b) ->
  calls (dispatch sdk api call) =
    CallRequest m endpoint b :: calls (request api m endpoint b)
  /\ outcome (dispatch sdk api call) =
       response_for call (outcome (request api m endpoint b)).
Proof.
  destruct call as [params|params|params|params| |id|params|params|id| |category|name];
    cbn [tool_request dispatch]; try discriminate.
  - intros [= <- <- <-]. apply (guarded_request_run api list_chatflows).
  - intros [= <- <- <-]. apply (guarded_request_run api (get_chatflow id)).
  - intros [= <- <- <-]. unfold create_payload.
    destruct params as [name flowData [[]|] [chatbotConfig|]];
      apply (guarded_request_run api (create_chatflow _)).
  - intros [= <- <- <-]. unfold update_payload, handleUpdateChatflow.
    destruct params as [id [name|] [flowData|] [chatbotConfig|]];
      cbn [update_chatflowId update_name update_flowData update_chatbotConfig
           optional ToBoolean];
      try destruct (String.eqb name EmptyString); cbn [negb];
      apply (guarded_request_run api (update_chatflow _)).
  - intros [= <- <- <-]. apply (guarded_request_run api (delete_chatflow id)).
  - intros [= <- <- <-]. apply (guarded_request_run api list_nodes).
  - destruct (has_surrogate category) eqn:H; [discriminate|].
    intros [= <- <- <-]. unfold handleGetNodesByCategory.
    rewrite (encodeURIComponent_well_formed category H), bind_settle_fulfilled.
    apply (guarded_request_run api (get_nodes_by_category category)).
  - destruct (has_surrogate name) eqn:H; [discriminate|].
    intros [= <- <- <-]. unfold handleGetNode.
    rewrite (encodeURIComponent_well_formed name H), bind_settle_fulfilled.
    apply (guarded_request_run api (get_node name)).
Qed.

Lemma tool_request_defined (call : ToolCall) :
  uses_sdk call = false -> malformed call = false ->
  exists m endpoint b, tool_request call = Some (m, endpoint, b).
Proof.
  destruct call; cbn [uses_sdk malformed tool_request]; try discriminate;
    intros _ Hm; rewrite ?Hm; eauto.
Qed.

(** A GET or DELETE request has no body argument, a POST or PUT request has
    an object. *)
Lemma tool_request_body (call : ToolCall) (m : Method) (endpoint : string)
    (b : JsValue) :
  tool_request call = Some (m, endpoint, b) ->
  match m with
  | GET | DELETE => b = JUndefined
  | POST | PUT => exists o, b = JObj o
  end.
Proof.
  destruct call as [params|params|params|params| |id|params|params|id| |category|name];
    cbn [tool_request]; try discriminate;
    try (intros [= <- <- <-]; eauto).
  - destruct (has_surrogate category); [discriminate|]. now intros [= <- <- <-].
  - destruct (has_surrogate name); [discriminate|]. now intros [= <- <- <-].
Qed.

Lemma dispatch_malformed (sdk : FlowiseSdkClient) (api : FlowiseApiClient)
    (call : ToolCall) :
  malformed call = true -> calls (dispatch sdk api call) = [].
Proof.
  destruct call; cbn [malformed dispatch]; try discriminate; intros H.
  - unfold handleGetNodesByCategory.
    now rewrite (encodeURIComponent_malformed _ H).
  - unfold handleGetNode. now rewrite (encodeURIComponent_malformed _ H).
Qed.

(** X7. End to end, an HTTP failure reaches the caller of a tool: when the
    backing API answers a chatflow or node tool with a status that is not ok
    and the text [t], the tool response is the error response whose text is
    the prefix of the tool, Flowise API error, the status between parentheses,
    a colon and [t]. *)
Theorem api_tool_surfaces_http_error (sdk : FlowiseSdkClient)
    (config : FlowiseApiConfig) (call : ToolCall) (response : Response) (t : string) :
  uses_sdk call = false ->
  malformed call = false ->
  ok response = false ->
  response_text response = Fulfilled t ->
  outcome
    (dispatch sdk (createFlowiseApiClient (answering (Fulfilled response)) config) call) =
  Fulfilled
    {| content :=
         [ {| type := "text";
              text := Some (error_prefix call +:+ "Flowise API error ("
                              +:+ pretty (status response) +:+ "): " +:+ t) |} ];
       isError := Some true |}.
Proof.
  intros Hsdk Hmal Hok Htext.
  destruct (tool_request_defined call Hsdk Hmal) as (m & endpoint & b & Hreq).
  destruct (dispatch_request sdk
              (createFlowiseApiClient (answering (Fulfilled response)) config)
              call m endpoint b Hreq) as [_ ->].
  rewrite request_run. unfold outcome, answering. cbn [snd].
  now rewrite Hok, Htext.
Qed.

(** X8. End to end, the body of an ok answer reaches the caller: when the
    backing API answers a chatflow or node tool with an ok response whose
    JSON is [v], the tool response is the success response for [v], and for
    delete_chatflow the success response for the object built around [v]. *)
Theorem api_tool_returns_json (sdk : FlowiseSdkClient)
    (config : FlowiseApiConfig) (call : ToolCall) (response : Response) (v : JsValue) :
  uses_sdk call = false ->
  malformed call = false ->
  ok response = true ->
  response_json response = Fulfilled v ->
  outcome
    (dispatch sdk (createFlowiseApiClient (answering (Fulfilled response)) config) call) =
  Fulfilled
    (successResponse
       match call with
       | delete_chatflow chatflowId =>
           JObj [("success", JBool true); ("deleted", JStr chatflowId); ("result", v)]
       | _ => v
       end).
Proof.
  intros Hsdk Hmal Hok Hjson.
  destruct (tool_request_defined call Hsdk Hmal) as (m & endpoint & b & Hreq).
  destruct (dispatch_request sdk
              (createFlowiseApiClient (answering (Fulfilled response)) config)
              call m endpoint b Hreq) as [_ ->].
  rewrite request_run. unfold outcome, answering. cbn [snd].
  rewrite Hok, Hjson. reflexivity.
Qed.

(** X9. A chatflow or node tool makes at most one HTTP request, whatever the
    network answers: none when the argument of a node tool cannot be encoded,
    otherwise one request on the transport client and the one fetch of that
    request, at the endpoint the handler asked for.  A GET or DELETE request
    never carries a body; a POST or PUT request always carries the JSON text
    of its payload. *)
Theorem api_tool_one_fetch (sdk : FlowiseSdkClient) (fetch : Fetch)
    (config : FlowiseApiConfig) (call : ToolCall) :
  uses_sdk call = false ->
  if malformed call
  then calls (dispatch sdk (createFlowiseApiClient fetch config) call) = []
  else
    exists m endpoint b init,
      calls (dispatch sdk (createFlowiseApiClient fetch config) call) =
        [CallRequest m endpoint b;
         CallFetch (baseUrl config +:+ "/api/v1" +:+ endpoint) init]
      /\ method init = m
      /\ match m with
         | GET | DELETE => b = JUndefined /\ body init = None
         | POST | PUT => exists t, JSON_stringify b = Some t /\ body init = Some t
         end.
Proof.
  intros Hsdk. destruct (malformed call) eqn:Hmal.
  - now apply dispatch_malformed.
  - destruct (tool_request_defined call Hsdk Hmal) as (m & endpoint & b & Hreq).
    destruct (dispatch_request sdk (createFlowiseApiClient fetch config)
                call m endpoint b Hreq) as [-> _].
    pose proof (tool_request_body call m endpoint b Hreq) as Hbody.
    exists m, endpoint, b. eexists. rewrite request_run. unfold calls. cbn [fst].
    split; [reflexivity|]. split; [reflexivity|]. cbn [body].
    destruct m.
    + subst b. now split.
    + destruct Hbody as [o ->]. eexists. split; reflexivity.
    + destruct Hbody as [o ->]. eexists. split; reflexivity.
    + subst b. now split.
Qed.

(** X10. A tool goes through one client only: the response and the calls of
    a prediction tool do not depend on the transport client, and those of a
    chatflow or node tool do not depend on the SDK client. *)
Theorem tool_uses_one_client (sdk sdk' : FlowiseSdkClient)
    (api api' : FlowiseApiClient) (call : ToolCall) :
  if uses_sdk call
  then dispatch sdk api call = dispatch sdk api' call
  else dispatch sdk api call = dispatch sdk' api call.
Proof. destruct call; reflexivity. Qed.

(** ** What goes on the wire for create and update *)

(** The JSON text of a payload of four properties, the last one optional. *)
Lemma create_payload_json (name flowData type : string) (chatbotConfig : option string) :
  JSON_stringify
    (JObj [ ("name", JStr name); ("flowData", JStr flowData); ("type", JStr type);
            ("chatbotConfig", optional JStr chatbotConfig) ]) =
  Some ("{" +:+ quoted "name" +:+ ":" +:+ QuoteJSONString name
          +:+ "," +:+ quoted "flowData" +:+ ":" +:+ QuoteJSONString flowData
          +:+ "," +:+ quoted "type" +:+ ":" +:+ QuoteJSONString type
          +:+ match chatbotConfig with
              | Some text =>
                  "," +:+ quoted "chatbotConfig" +:+ ":" +:+ QuoteJSONString text
              | None => EmptyString
              end
          +:+ "}").
Proof.
  unfold JSON_stringify. cbn [SerializeJSONProperty flat_map snd fst app].
  destruct chatbotConfig as [text|]; cbn [optional SerializeJSONProperty app];
    f_equal; unfold wrap, QuoteJSONString, quoted, str; simpl;
    repeat (rewrite !append_assoc; simpl); reflexivity.
Qed.

(** X11. On the wire, create_chatflow sends a POST to /api/v1/chatflows
    whose body is one JSON object with name, flowData and type, in this
    order, and chatbotConfig after them only when it was supplied: an omitted
    chatbotConfig is not in the body at all.  flowData and chatbotConfig are
    JSON strings that hold the JSON text of the objects. *)
Theorem create_chatflow_http_body (fetch : Fetch) (config : FlowiseApiConfig)
    (params : CreateChatflowParams) :
  exists payload init,
    calls (handleCreateChatflow (createFlowiseApiClient fetch config) params) =
      [CallRequest POST "/chatflows" payload;
       CallFetch (baseUrl config +:+ "/api/v1" +:+ "/chatflows") init]
    /\ method init = POST
    /\ body init =
         Some ("{" +:+ quoted "name" +:+ ":" +:+ QuoteJSONString (create_name params)
                 +:+ "," +:+ quoted "flowData" +:+ ":"
                 +:+ QuoteJSONString (object_json (create_flowData params))
                 +:+ "," +:+ quoted "type" +:+ ":"
                 +:+ quoted match create_type params with
                            | Some t => ChatflowType_string t
                            | None => "CHATFLOW"
                            end
                 +:+ match create_chatbotConfig params with
                     | Some chatbotConfig =>
                         "," +:+ quoted "chatbotConfig" +:+ ":"
                           +:+ QuoteJSONString (object_json chatbotConfig)
                     | None => EmptyString
                     end
                 +:+ "}").
Proof.
  destruct (dispatch_request (mockSdkClient (Fulfilled JNull))
              (createFlowiseApiClient fetch config) (create_chatflow params)
              POST "/chatflows" (JObj (create_payload params)) eq_refl) as [Hcalls _].
  cbn [dispatch] in Hcalls. rewrite Hcalls, request_run.
  unfold calls. cbn [fst]. do 2 eexists.
  split; [reflexivity|]. split; [reflexivity|]. cbn [body ToBoolean].
  unfold create_payload.
  destruct params as [name flowData type chatbotConfig].
  cbn [create_name create_flowData create_type create_chatbotConfig].
  generalize (object_json flowData) as flowText. intros flowText.
  destruct chatbotConfig as [chatbotConfig|].
  - generalize (object_json chatbotConfig) as configText. intros configText.
    destruct type as [[]|];
      exact (create_payload_json name flowText _ (Some configText)).
  - destruct type as [[]|]; exact (create_payload_json name flowText _ None).
Qed.

(** X12. A PUT of update_chatflow always carries a body, the JSON text of
    its payload, also when there is nothing to update: with no flowData, no
    chatbotConfig and no name or only an empty one, the handler still sends
    the request, with the body of the empty object. *)
Theorem update_chatflow_http_body (fetch : Fetch) (config : FlowiseApiConfig)
    (params : UpdateChatflowParams) :
  exists payload init,
    calls (handleUpdateChatflow (createFlowiseApiClient fetch config) params) =
      [CallRequest PUT ("/chatflows/" +:+ update_chatflowId params) (JObj payload);
       CallFetch (baseUrl config +:+ "/api/v1" +:+ "/chatflows/"
                    +:+ update_chatflowId params) init]
    /\ method init = PUT
    /\ body init = Some (object_json payload)
    /\ (update_flowData params = None ->
        update_chatbotConfig params = None ->
        update_name params = None \/ update_name params = Some EmptyString ->
        payload = [] /\ body init = Some "{}").
Proof.
  destruct (dispatch_request (mockSdkClient (Fulfilled JNull))
              (createFlowiseApiClient fetch config) (update_chatflow params)
              PUT ("/chatflows/" +:+ update_chatflowId params)
              (JObj (update_payload params)) eq_refl) as [Hcalls _].
  cbn [dispatch] in Hcalls. rewrite Hcalls, request_run.
  unfold calls. cbn [fst]. do 2 eexists.
  split; [reflexivity|]. split; [reflexivity|]. split; [reflexivity|].
  intros Hflow Hconfig Hname. unfold update_payload. rewrite Hflow, Hconfig.
  destruct Hname as [->| ->]; split; reflexivity.
Qed.

(** ** The encoded part of a node endpoint *)

Lemma all_chars_append (test : ascii -> bool) (a b : string) :
  all_chars test (a +:+ b) = all_chars test a && all_chars test b.
Proof.
  induction a as [|c a IH]; simpl; [reflexivity|].
  now rewrite IH, andb_assoc.
Qed.

Lemma percent_safe (c : ascii) : all_chars uriSafe (percent c) = true.
Proof. destruct c as [[] [] [] [] [] [] [] []]; reflexivity. Qed.

Lemma percent_encode_safe (s : string) : all_chars uriSafe (percent_encode s) = true.
Proof.
  induction s as [|c rest IH]; [reflexivity|].
  cbn [percent_encode]. rewrite all_chars_append, IH, andb_true_r.
  destruct (uriUnescaped c) eqn:Hc; [|apply percent_safe].
  cbn. unfold uriSafe. now rewrite Hc.
Qed.

(** A text whose characters all pass a test holds no character that fails it. *)
Lemma all_chars_excludes (test : ascii -> bool) (s : string) (c : ascii) :
  all_chars test s = true -> test c = false -> includes s (str c) = false.
Proof.
  intros Hall Hc. induction s as [|x rest IH]; [reflexivity|].
  cbn [all_chars] in Hall. apply andb_prop in Hall as [Hx Hrest].
  cbn [includes]. rewrite (IH Hrest), orb_false_r.
  unfold str. cbn [String.prefix].
  destruct (ascii_dec c x) as [->|_]; [congruence | reflexivity].
Qed.

Lemma node_calls (api : FlowiseApiClient) (name : string) :
  has_surrogate name = false ->
  calls (handleGetNodesByCategory api name) =
    CallRequest GET ("/nodes/category/" +:+ percent_encode name) JUndefined
      :: calls (request api GET ("/nodes/category/" +:+ percent_encode name) JUndefined)
  /\ calls (handleGetNode api name) =
       CallRequest GET ("/nodes/" +:+ percent_encode name) JUndefined
         :: calls (request api GET ("/nodes/" +:+ percent_encode name) JUndefined).
Proof.
  intros H. split.
  - refine (proj1 (dispatch_request (mockSdkClient (Fulfilled JNull)) api
                     (get_nodes_by_category name) GET _ JUndefined _)).
    cbn [tool_request]. now rewrite H.
  - refine (proj1 (dispatch_request (mockSdkClient (Fulfilled JNull)) api
                     (get_node name) GET _ JUndefined _)).
    cbn [tool_request]. now rewrite H.
Qed.

(** X13. Whenever get_nodes_by_category or get_node makes a request, what
    follows /nodes/category/ or /nodes/ in the endpoint is made of letters,
    digits, the characters [- _ . ! ~ * ' ( )] and the percent sign only: it
    holds no slash, question mark or hash.  The dot is one of the characters
    that are kept: a name that holds no escaped character, such as [.] or
    [..], is requested as it is. *)
Theorem node_endpoint_characters (api : FlowiseApiClient) (name : string) :
  has_surrogate name = false ->
  exists encoded,
    calls (handleGetNodesByCategory api name) =
      CallRequest GET ("/nodes/category/" +:+ encoded) JUndefined
        :: calls (request api GET ("/nodes/category/" +:+ encoded) JUndefined)
    /\ calls (handleGetNode api name) =
         CallRequest GET ("/nodes/" +:+ encoded) JUndefined
           :: calls (request api GET ("/nodes/" +:+ encoded) JUndefined)
    /\ all_chars uriSafe encoded = true
    /\ includes encoded "/" = false
    /\ includes encoded "?" = false
    /\ includes encoded "#" = false
    /\ (has_escaped name = false -> encoded = name)
    /\ has_escaped ".." = false.
Proof.
  intros H. exists (percent_encode name).
  destruct (node_calls api name H) as [Hcat Hnode].
  pose proof (percent_encode_safe name) as Hsafe.
  repeat split; try assumption;
    try (now apply (all_chars_excludes uriSafe (percent_encode name))).
  apply percent_encode_plain.
Qed.

Lemma percent_decode_percent (c : ascii) (rest : string) :
  percent_decode (percent c +:+ rest) = String c (percent_decode rest).
Proof. destruct c as [[] [] [] [] [] [] [] []]; reflexivity. Qed.

Lemma unescaped_not_percent (c : ascii) :
  uriUnescaped c = true -> (N_of_ascii c =? 37)%N = false.
Proof.
  unfold uriUnescaped. intros H.
  destruct (N.eqb_spec (N_of_ascii c) 37) as [E|]; [|reflexivity].
  rewrite E in H. discriminate.
Qed.

(** Percent-encoding loses nothing: decoding gives the string back. *)
Lemma percent_decode_encode (s : string) : percent_decode (percent_encode s) = s.
Proof.
  induction s as [|c rest IH]; [reflexivity|].
  cbn [percent_encode]. destruct (uriUnescaped c) eqn:Hc.
  - cbn. rewrite (unescaped_not_percent c Hc), IH. reflexivity.
  - rewrite percent_decode_percent, IH. reflexivity.
Qed.

(** X14. Two different categories, or two different node names, never
    request the same endpoint: whenever get_nodes_by_category or get_node
    makes the same first call for two arguments that can be encoded, the two
    arguments are the same string. *)
Theorem node_endpoint_injective (api : FlowiseApiClient) (name1 name2 : string) :
  has_surrogate name1 = false ->
  has_surrogate name2 = false ->
  (hd_error (calls (handleGetNodesByCategory api name1)) =
     hd_error (calls (handleGetNodesByCategory api name2)) -> name1 = name2)
  /\ (hd_error (calls (handleGetNode api name1)) =
        hd_error (calls (handleGetNode api name2)) -> name1 = name2).
Proof.
  intros H1 H2.
  destruct (node_calls api name1 H1) as [Hcat1 Hnode1].
  destruct (node_calls api name2 H2) as [Hcat2 Hnode2].
  rewrite Hcat1, Hcat2, Hnode1, Hnode2. cbn [hd_error].
  split; intros [= Heq];
    rewrite <- (percent_decode_encode name1), <- (percent_decode_encode name2);
    now rewrite Heq.
Qed.

(** ** The two response constructors *)

Lemma JSON_stringify_pretty_undefined (data : JsValue) :
  JSON_stringify_pretty data = None <-> data = JUndefined.
Proof.
  split; [|now intros ->].
  destruct data as [| |[]|n|s|elems|props]; cbn; intros H;
    try discriminate; reflexivity.
Qed.

(** X15. successResponse leaves the text of its item undefined for the
    value undefined and for no other value: every success response for a
    value parsed from JSON has a text, and so has every success response of
    delete_chatflow, whatever the raw result.  A success response is never
    marked as an error and an error response always is. *)
Theorem successResponse_text (data : JsValue) (chatflowId message : string)
    (result : JsValue) :
  (exists t,
     content (successResponse data) = [ {| type := "text"; text := t |} ]
     /\ (t = None <-> data = JUndefined))
  /\ (exists t,
        content
          (successResponse
             (JObj [("success", JBool true); ("deleted", JStr chatflowId);
                    ("result", result)])) = [ {| type := "text"; text := Some t |} ])
  /\ isError (successResponse data) = None
  /\ successResponse data <> errorResponse message.
Proof.
  split; [|split; [|split]].
  - eexists. split; [reflexivity|]. apply JSON_stringify_pretty_undefined.
  - eexists. reflexivity.
  - reflexivity.
  - discriminate.
Qed.

(** ** The two forms of index.ts *)

(** X16. The single-file index.ts and the index.ts over handlers.ts and
    flowise-api.ts do the same for the eight chatflow and node tools: on the
    same environment, network and parameters, they make the same calls and
    return the same tool response. *)
Theorem inline_api_tools_agree (env : gmap string string) (fetch : Fetch)
    (sdk : FlowiseSdkClient) (call : ToolCall) :
  uses_sdk call = false ->
  dispatch_inline env fetch sdk call =
  dispatch sdk (createFlowiseApiClient fetch (getDefaultConfig env)) call.
Proof. destruct call; cbn [uses_sdk]; try discriminate; reflexivity. Qed.

(** X17. The prediction callbacks of the single-file index.ts pass
    createPrediction the parameters their schema declares, in that order,
    followed by streaming: false, and nothing else; for each of these names
    the value is the one the handlers of handlers.ts pass. *)
Theorem inline_prediction_forwards :
  forwards ["chatflowId"; "question"; "chatId"; "overrideConfig"]
    tool_create_prediction
  /\ forwards ["chatflowId"; "question"; "history"; "chatId"; "overrideConfig"]
       tool_create_prediction_with_history
  /\ forwards ["chatflowId"; "question"; "uploads"; "chatId"; "overrideConfig"]
       tool_create_prediction_with_files
  /\ forwards ["chatflowId"; "question"; "leadEmail"; "chatId"; "overrideConfig"]
       tool_create_prediction_with_lead.
Proof.
  repeat split; intros client params; eexists;
    (split; [apply inline_prediction_calls|]);
    (split; [reflexivity|]);
    repeat constructor;
    first [ now rewrite obj_get_set_eq
          | now rewrite obj_get_set_ne by discriminate ].
Qed.

(** ** Start-up *)

(** X18. At start-up the process first connects the server.  It calls
    process.exit, with code 1 and as its last action, exactly when the
    connection is rejected, after logging Fatal error with the error; it logs
    that the server is running exactly when the connection succeeds. *)
Theorem start_exits_on_failure (connect : Settled unit) :
  hd_error (start connect) = Some ServerConnect
  /\ (forall code,
        In (ProcessExit code) (start connect) <->
        code = 1%N /\ exists error, connect = Rejected error)
  /\ (forall error,
        connect = Rejected error ->
        exists before,
          start connect =
            before ++ [ConsoleError "Fatal error:" (Some error); ProcessExit 1])
  /\ (In (ConsoleError "Flowise MCP server running on stdio" None) (start connect) <->
      exists u, connect = Fulfilled u).
Proof.
  destruct connect as [u|e]; cbn.
  - split; [reflexivity|]. split; [|split].
    + intros code. split.
      * intros [H|[H|[]]]; discriminate.
      * intros [_ [error H]]. discriminate.
    + intros error H. discriminate.
    + split; [eauto | intros _; right; left; reflexivity].
  - split; [reflexivity|]. split; [|split].
    + intros code. split.
      * intros [H|[H|[H|[]]]]; try discriminate.
        injection H as <-. eauto.
      * intros [-> _]. right. right. left. reflexivity.
    + intros error [= <-]. exists [ServerConnect]. reflexivity.
    + split; [|intros [u H]; discriminate].
      intros [H|[H|[H|[]]]]; discriminate.
Qed.

(** ** The spread of the prediction handlers *)

Lemma obj_set_keys (o : JsObject) (k : string) (v : JsValue) :
  map fst (obj_set o k v) =
  if obj_has o k then map fst o else map fst o ++ [k].
Proof.
  induction o as [|[k' v'] rest IH]; [reflexivity|].
  cbn [obj_set obj_has]. destruct (String.eqb k' k) eqn:E; cbn [orb map fst].
  - reflexivity.
  - rewrite IH. now destruct (obj_has rest k).
Qed.

(** A property of another name stays at its place, with its value. *)
Lemma obj_set_lookup_ne (o : JsObject) (k : string) (v : JsValue) (i : nat)
    (k' : string) (v' : JsValue) :
  o !! i = Some (k', v') -> k' <> k -> obj_set o k v !! i = Some (k', v').
Proof.
  revert i. induction o as [|[k0 v0] rest IH]; intros i Hi Hne; [discriminate|].
  cbn [obj_set]. destruct i as [|i]; cbn in Hi.
  - injection Hi as -> ->.
    destruct (String.eqb_spec k' k) as [E|_]; [contradiction | reflexivity].
  - destruct (String.eqb k0 k); cbn; [exact Hi | now apply IH].
Qed.

(** X19. The prediction handlers of handlers.ts drop, reorder and change
    nothing but streaming: createPrediction receives the properties of the
    parameter object under the same names in the order of the caller, every
    property but streaming at its place with the value the caller gave, and
    streaming with the value false, added at the end only when the object
    has no streaming property of its own. *)
Theorem prediction_keeps_properties :
  keeps_properties handleCreatePrediction
  /\ keeps_properties handleCreatePredictionWithHistory
  /\ keeps_properties handleCreatePredictionWithFiles
  /\ keeps_properties handleCreatePredictionWithLead.
Proof.
  repeat split; intros client params;
    exists (obj_set params "streaming" (JBool false));
    (split; [apply prediction_calls|]);
    (split; [apply obj_set_keys|]);
    (split; [|apply obj_get_set_eq]);
    intros i k v Hi Hk; now apply obj_set_lookup_ne.
Qed.

(** ** Failures below the HTTP status *)

(** X20. A failure of the network or of the parsing of the answer reaches
    the caller of a chatflow or node tool as its error response: when fetch
    is rejected with an Error, or when the response is ok and reading its
    JSON is rejected with an Error, the text of the tool response is the
    prefix of the tool followed by the message of that Error. *)
Theorem api_tool_surfaces_failure (sdk : FlowiseSdkClient)
    (config : FlowiseApiConfig) (call : ToolCall) (network : Settled Response)
    (message : string) :
  uses_sdk call = false ->
  malformed call = false ->
  (network = Rejected (ErrorObject message) \/
   exists response,
     network = Fulfilled response /\ ok response = true
     /\ response_json response = Rejected (ErrorObject message)) ->
  outcome (dispatch sdk (createFlowiseApiClient (answering network) config) call) =
  Fulfilled
    {| content :=
         [ {| type := "text";
              text := Some (error_prefix call +:+ message) |} ];
       isError := Some true |}.
Proof.
  intros Hsdk Hmal Hnet.
  destruct (tool_request_defined call Hsdk Hmal) as (m & endpoint & b & Hreq).
  destruct (dispatch_request sdk (createFlowiseApiClient (answering network) config)
              call m endpoint b Hreq) as [_ ->].
  rewrite request_run. unfold outcome, answering. cbn [snd].
  destruct Hnet as [->|(response & -> & Hok & Hjson)].
  - reflexivity.
  - now rewrite Hok, Hjson.
Qed.

End FurtherProperties.

(** * Runs of the further properties *)

(** A run of X2: the backing API answers 200 with an empty object. *)
Lemma request_returns_json_witness :
  outcome (request (createFlowiseApiClient fetch_ok localhost) GET "/chatflows/123"
             JUndefined) = Fulfilled (JObj []).
Proof.
  exact (request_returns_json fetch_ok localhost GET "/chatflows/123" JUndefined
           _ _ _ eq_refl eq_refl eq_refl).
Defined.

(** A run of X3: the backing API answers 404 with a text. *)
Lemma request_rejects_not_ok_witness :
  outcome
    (request
       (createFlowiseApiClient
          (answering (Fulfilled response_not_found))
          localhost)
       GET "/chatflows/999" JUndefined) =
  Rejected (ErrorObject "Flowise API error (404): Chatflow not found").
Proof.
  exact (request_rejects_not_ok (answering (Fulfilled response_not_found)) localhost
           GET "/chatflows/999" JUndefined _ _ response_not_found
           "Chatflow not found" eq_refl eq_refl eq_refl eq_refl).
Defined.

(** A run of X4: the network is down. *)
Lemma request_propagates_failure_witness :
  outcome
    (request
       (createFlowiseApiClient (answering (Rejected (ErrorObject "fetch failed")))
          localhost)
       GET "/chatflows" JUndefined) =
  Rejected (ErrorObject "fetch failed").
Proof.
  exact (request_propagates_failure
           (answering (Rejected (ErrorObject "fetch failed"))) localhost
           GET "/chatflows" JUndefined _ _ (ErrorObject "fetch failed")
           eq_refl (or_introl eq_refl)).
Defined.

(** A run of X7: get_chatflow of a chatflow the backing API does not know. *)
Lemma api_tool_surfaces_http_error_witness :
  outcome
    (dispatch (mockSdkClient (Fulfilled JNull))
       (createFlowiseApiClient
          (answering (Fulfilled response_not_found))
          localhost)
       (get_chatflow "999")) =
  Fulfilled
    (errorResponse
       "Error getting chatflow: Flowise API error (404): Chatflow not found").
Proof.
  exact (api_tool_surfaces_http_error (mockSdkClient (Fulfilled JNull)) localhost
           (get_chatflow "999") response_not_found "Chatflow not found"
           eq_refl eq_refl eq_refl eq_refl).
Defined.

(** A run of X8: delete_chatflow when the backing API answers with an empty
    object. *)
Lemma api_tool_returns_json_witness :
  outcome
    (dispatch (mockSdkClient (Fulfilled JNull))
       (createFlowiseApiClient (answering (Fulfilled response_ok)) localhost)
       (delete_chatflow "123")) =
  Fulfilled
    (successResponse
       (JObj [("success", JBool true); ("deleted", JStr "123"); ("result", JObj [])])).
Proof.
  exact (api_tool_returns_json (mockSdkClient (Fulfilled JNull)) localhost
           (delete_chatflow "123") response_ok (JObj [])
           eq_refl eq_refl eq_refl eq_refl).
Defined.

(** A run of X9: delete_chatflow makes one DELETE request, without body. *)
Lemma api_tool_one_fetch_witness :
  exists m endpoint b init,
    calls
      (dispatch (mockSdkClient (Fulfilled JNull))
         (createFlowiseApiClient fetch_ok localhost) (delete_chatflow "123")) =
      [CallRequest m endpoint b;
       CallFetch ("http://localhost:3000" +:+ "/api/v1" +:+ endpoint) init]
    /\ method init = m
    /\ match m with
       | GET | DELETE => b = JUndefined /\ body init = None
       | POST | PUT => exists t, JSON_stringify b = Some t /\ body init = Some t
       end.
Proof.
  exact (api_tool_one_fetch (mockSdkClient (Fulfilled JNull)) fetch_ok localhost
           (delete_chatflow "123") eq_refl).
Defined.

(** A run of X12: an update of chatflow 123 with nothing to update. *)
Lemma update_chatflow_http_body_witness :
  exists init,
    calls
      (handleUpdateChatflow (createFlowiseApiClient fetch_ok localhost)
         {| update_chatflowId := "123"; update_name := Some EmptyString;
            update_flowData := None; update_chatbotConfig := None |}) =
      [CallRequest PUT "/chatflows/123" (JObj []);
       CallFetch "http://localhost:3000/api/v1/chatflows/123" init]
    /\ body init = Some "{}".
Proof.
  destruct (update_chatflow_http_body fetch_ok localhost
              {| update_chatflowId := "123"; update_name := Some EmptyString;
                 update_flowData := None; update_chatbotConfig := None |})
    as (payload & init & Hcalls & _ & _ & Hempty).
  destruct (Hempty eq_refl eq_refl (or_intror eq_refl)) as [Hpayload Hbody].
  exists init. rewrite Hcalls, Hpayload. split; [reflexivity | exact Hbody].
Defined.

(** Two runs of X13: the node name custom/node, whose slash is escaped, and
    the node name made of two dots, which is requested as it is. *)
Lemma node_endpoint_characters_witness :
  (exists encoded,
     calls (handleGetNode (mockApiClient (Fulfilled JNull)) "custom/node") =
       CallRequest GET ("/nodes/" +:+ encoded) JUndefined
         :: calls (request (mockApiClient (Fulfilled JNull)) GET
                     ("/nodes/" +:+ encoded) JUndefined)
     /\ includes encoded "/" = false)
  /\ calls (handleGetNode (mockApiClient (Fulfilled JNull)) "..") =
       CallRequest GET "/nodes/.." JUndefined
         :: calls (request (mockApiClient (Fulfilled JNull)) GET "/nodes/.." JUndefined).
Proof.
  split.
  - destruct (node_endpoint_characters (mockApiClient (Fulfilled JNull)) "custom/node"
                eq_refl) as (encoded & _ & Hnode & _ & Hslash & _).
    exists encoded. split; [exact Hnode | exact Hslash].
  - destruct (node_endpoint_characters (mockApiClient (Fulfilled JNull)) ".."
                eq_refl) as (encoded & _ & Hnode & _ & _ & _ & _ & Hplain & _).
    rewrite (Hplain eq_refl) in Hnode. exact Hnode.
Defined.

(** A run of X14: a name and the text of its own encoding are two names. *)
Lemma node_endpoint_injective_witness :
  hd_error (calls (handleGetNode (mockApiClient (Fulfilled JNull)) "a b")) <>
  hd_error (calls (handleGetNode (mockApiClient (Fulfilled JNull)) "a%20b")).
Proof.
  intros H.
  pose proof (proj2 (node_endpoint_injective (mockApiClient (Fulfilled JNull))
                       "a b" "a%20b" eq_refl eq_refl) H) as Heq.
  discriminate Heq.
Defined.

(** A run of X16: list_chatflows in the two forms of index.ts. *)
Lemma inline_api_tools_agree_witness :
  dispatch_inline ∅ fetch_ok (mockSdkClient (Fulfilled JNull)) list_chatflows =
  dispatch (mockSdkClient (Fulfilled JNull))
    (createFlowiseApiClient fetch_ok (getDefaultConfig ∅)) list_chatflows.
Proof.
  exact (inline_api_tools_agree ∅ fetch_ok (mockSdkClient (Fulfilled JNull))
           list_chatflows eq_refl).
Defined.

(** A run of X20: the answer of the backing API is not JSON. *)
Lemma api_tool_surfaces_failure_witness :
  outcome
    (dispatch (mockSdkClient (Fulfilled JNull))
       (createFlowiseApiClient
          (answering (Fulfilled response_not_json)) localhost)
       list_nodes) =
  Fulfilled (errorResponse "Error listing nodes: Unexpected token").
Proof.
  exact (api_tool_surfaces_failure (mockSdkClient (Fulfilled JNull)) localhost
           list_nodes (Fulfilled response_not_json) "Unexpected token"
           eq_refl eq_refl
           (or_intror
              (ex_intro _ response_not_json (conj eq_refl (conj eq_refl eq_refl))))).
Defined.
